(** * Host-side CAN bootloader: frame codec, request engine, page programmer

    A shallow embedding of [src/bootloader/bootloader.py] (Python 3) and the
    properties of its protocol engine.

    Conventions of the embedding:
    - Python [int] is [Z]; a Python number that may be an [int] or a [float]
      (the loop variables of [program_page]) is a [pynum];
    - a Python exception is an [exn]; a call either returns, raises, loops
      for ever ([Diverge]) or exhausts the fuel of a [while] loop of the
      model ([OutOfFuel]);
    - the attributes of a [Bootloader] object, the frames handed to
      [interface.send] and what the inbound queue will deliver are one
      record that every method threads through (the monad [M]). *)

From Stdlib Require Import ZArith QArith Qround List Bool Ascii Lia.
Import ListNotations.
Local Open Scope Z_scope.

Set Implicit Arguments.

(** ** Python values *)

(** [l[a:b]] for a list: negative indices count from the end, both bounds
    are clamped to the length. *)
Definition clamp_index (len i : Z) : Z :=
  if i <? 0 then Z.max 0 (i + len) else Z.min i len.

Definition py_slice {A : Type} (l : list A) (a b : Z) : list A :=
  let len := Z.of_nat (length l) in
  let a' := clamp_index len a in
  let b' := clamp_index len b in
  firstn (Z.to_nat (b' - a')) (skipn (Z.to_nat a') l).

(** [l[a:]] *)
Definition py_slice_from {A : Type} (l : list A) (a : Z) : list A :=
  py_slice l a (Z.of_nat (length l)).

(** [ord(x)] of a one-character string. *)
Definition ord (x : ascii) : Z := Z.of_N (N_of_ascii x).

(** A number as Python 3 has it at run time.  The floats that occur here are
    quotients of small integers by powers of two and their sums and
    differences; binary64 represents each of them exactly, so a float is
    modelled by the rational it denotes (kept in lowest terms). *)
Inductive pynum : Type :=
| PInt (z : Z)
| PFloat (q : Q).

Definition to_Q (x : pynum) : Q :=
  match x with
  | PInt z => inject_Z z
  | PFloat q => q
  end.

(** [x / d] for a non-zero integer literal [d]: true division, always a
    float. *)
Definition py_truediv (x : pynum) (d : Z) : pynum :=
  PFloat (Qred (to_Q x / inject_Z d)).

Definition py_sub (x y : pynum) : pynum :=
  match x, y with
  | PInt a, PInt b => PInt (a - b)
  | _, _ => PFloat (Qred (to_Q x - to_Q y))
  end.

Definition py_add (x y : pynum) : pynum :=
  match x, y with
  | PInt a, PInt b => PInt (a + b)
  | _, _ => PFloat (Qred (to_Q x + to_Q y))
  end.

(** Comparisons between [int] and [float] are exact in Python. *)
Definition py_lt (x y : pynum) : bool := negb (Qle_bool (to_Q y) (to_Q x)).
Definition py_gt (x y : pynum) : bool := py_lt y x.
Definition py_eq (x y : pynum) : bool := Qeq_bool (to_Q x) (to_Q y).

(** ** Exceptions and outcomes *)

(** Why a [BootloaderException] was raised (its message in the source). *)
Inductive failure : Type :=
| BadFormat                 (* "wrong format of message" *)
| NoResponse (repeats : Z)  (* "No response after %i attempts ..." *)
| Failure (type : Z)        (* "Failure %i while sending ..." *)
| PageMismatch (page : Z)   (* "Could not write page %i!" *)
| TooLarge.                 (* "Programsize exceeds available Flash!" *)

Inductive exn : Type :=
| BootloaderException (why : failure)
| TypeError
| IndexError
| KeyError
| UnboundLocalError
| AttributeError
| ZeroDivisionError.

Inductive outcome (A : Type) : Type :=
| Return (a : A)
| Raise (e : exn)
| Diverge
| OutOfFuel.

Arguments Return {A} a.
Arguments Raise {A} e.
Arguments Diverge {A}.
Arguments OutOfFuel {A}.

(** ** Constants *)

Module MessageSubject.
Definition IDENTIFY : Z := 1.
Definition SET_ADDRESS : Z := 2.
Definition DATA : Z := 3.
Definition START_APPLICATION : Z := 4.
Definition GET_FUSEBITS : Z := 5.
Definition CHIP_ERASE : Z := 6.
End MessageSubject.

Module MessageType.
Definition REQUEST : Z := 0.
Definition SUCCESS : Z := 1.
Definition ERROR : Z := 2.
Definition WRONG_NUMBER : Z := 3.
End MessageType.

(** ** CAN frames (the external [can.Message]) *)

Module can.
Record Message : Type := Build_Message {
    id : Z;
    data : list Z;
    extended : bool;
    rtr : bool
  }.
End can.

(** ** Bootloader messages and the codec *)

Record Message : Type := Build_Message {
  board_id : Z;
  type : Z;
  subject : Z;
  number : Z;
  data_counter : Z;
  data : list Z
}.

Definition BOOTLOADER_CAN_IDENTIFIER : Z := 0x7ff.
Definition START_OF_MESSAGE_MASK : Z := 0x80.

Definition set_number (m : Message) (n : Z) : Message :=
  Build_Message (board_id m) (type m) (subject m) n (data_counter m) (data m).

(** [Message.decode] *)
Definition decode (message : can.Message) : outcome Message :=
  if (Z.of_nat (length (can.data message)) <? 4)
     || can.extended message || can.rtr message
  then Raise (BootloaderException BadFormat)
  else
    match can.data message with
    | d0 :: d1 :: d2 :: d3 :: _ =>
        Return (Build_Message d0 (Z.shiftr d1 6) (Z.land d1 0x3f) d2 d3
                  (py_slice_from (can.data message) 4))
    | _ => Raise IndexError
    end.

(** [Message.encode] *)
Definition encode (m : Message) : can.Message :=
  can.Build_Message BOOTLOADER_CAN_IDENTIFIER
    ([board_id m; Z.lor (Z.shiftl (type m) 6) (subject m); number m;
      data_counter m] ++ data m)
    false false.

(** ** The board and the session *)

Module ProgrammeableBoard.
Record t : Type := Build {
    id : Z;
    connected : bool;
    bootloader_type : option Z;
    version : Z;
    pages : Z;
    pagesize : Z
  }.

  (** [ProgrammeableBoard.__init__] *)
Definition init (identifier : Z) : t := Build identifier false None 0 0 0.
End ProgrammeableBoard.

(** The attributes of a [Bootloader] object.

    - [interface] is the list of frames handed to [interface.send], oldest
      first.
    - [msg_queue] stands for what the delivery thread will put in the queue:
      its k-th element is what the blocking [msg_queue.get(True, timeout)]
      calls of the k-th response-awaiting [_send] return, in order, [None]
      for a timeout ([queue.Empty]) and [Some m] for a message.  When the
      list of a call is used up the bus stays silent for the rest of that
      call.  Messages that the non-blocking drains of [_send] throw away are
      those that no blocking [get] returns, so they do not appear. *)
Record Bootloader : Type := Build_Bootloader {
  board : ProgrammeableBoard.t;
  msg_number : Z;
  interface : list can.Message;
  msg_queue : list (list (option Message))
}.

(** [Bootloader.__init__] with the inbound traffic of the session *)
Definition init (board_id : Z) (inbound : list (list (option Message)))
  : Bootloader :=
  Build_Bootloader (ProgrammeableBoard.init board_id) 0 [] inbound.

Definition set_board (self : Bootloader) (b : ProgrammeableBoard.t) :=
  Build_Bootloader b (msg_number self) (interface self) (msg_queue self).
Definition set_msg_number (self : Bootloader) (n : Z) :=
  Build_Bootloader (board self) n (interface self) (msg_queue self).
Definition set_msg_queue (self : Bootloader) (q : list (list (option Message))) :=
  Build_Bootloader (board self) (msg_number self) (interface self) q.

(** [self.interface.send(message.encode())] *)
Definition transmit (message : Message) (self : Bootloader) : Bootloader :=
  Build_Bootloader (board self) (msg_number self)
    (interface self ++ [encode message]) (msg_queue self).

(** ** The monad of methods: state passing with exceptions.
    The state survives an exception, as the attributes of a Python object
    do. *)

Definition M (A : Type) : Type := Bootloader -> outcome A * Bootloader.

Definition ret {A : Type} (a : A) : M A := fun self => (Return a, self).
Definition raise {A : Type} (e : exn) : M A := fun self => (Raise e, self).

Definition bind {A B : Type} (c : M A) (k : A -> M B) : M B :=
  fun self =>
    match c self with
    | (Return a, self') => k a self'
    | (Raise e, self') => (Raise e, self')
    | (Diverge, self') => (Diverge, self')
    | (OutOfFuel, self') => (OutOfFuel, self')
    end.

Declare Scope monad_scope.
Delimit Scope monad_scope with monad.
Notation "x <- c ;; k" := (bind c (fun x => k))
  (at level 61, c at next level, right associativity) : monad_scope.
Notation "c ;; k" := (bind c (fun _ => k))
  (at level 61, right associativity) : monad_scope.
Local Open Scope monad_scope.

(** ** The request engine: [Bootloader._send] *)

(** [attempts > 0 and repeats >= attempts] *)
Definition exhausted (attempts repeats : Z) : bool :=
  (0 <? attempts) && (attempts <=? repeats).

(** The [WRONG_NUMBER] branch: the number is taken over from the response
    only if the request in flight carries number 0. *)
Definition wrong_number (response_msg message : Message) (self : Bootloader)
  : Message * Bootloader :=
  if number message =? 0
  then
    let self := set_msg_number self (number response_msg) in
    (set_number message (msg_number self), self)
  else (message, self).

(** The rest of the [while not finished] loop once the bus is silent: every
    wait ends in [queue.Empty], the frame is sent again until the attempts
    are used up.  [k] bounds the retransmissions still possible; with
    [attempts <= 0] the loop never ends. *)
Fixpoint wait_silent (k : nat) (attempts : Z) (message : Message)
  (repeats : Z) (self : Bootloader) : outcome Message * Bootloader :=
  let repeats := repeats + 1 in
  if exhausted attempts repeats
  then (Raise (BootloaderException (NoResponse repeats)), self)
  else
    match k with
    | O => (Diverge, self)
    | S k' => wait_silent k' attempts message repeats (transmit message self)
    end.

(** The two nested loops of [_send], entered after the first transmission.
    [obs] is what the blocking [get] calls of this request return.  The
    result is [response_msg] when the loop ends with [finished]. *)
Fixpoint wait_response (attempts : Z) (obs : list (option Message))
  (message : Message) (repeats : Z) (self : Bootloader)
  : outcome Message * Bootloader :=
  match obs with
  | [] =>
      wait_silent (Z.to_nat (attempts - repeats)) attempts message repeats self
  | None :: obs' =>
      (* queue.Empty: leave the inner loop *)
      let repeats := repeats + 1 in
      if exhausted attempts repeats
      then (Raise (BootloaderException (NoResponse repeats)), self)
      else wait_response attempts obs' message repeats (transmit message self)
  | Some response_msg :: obs' =>
      if subject response_msg =? subject message then
        if type response_msg =? MessageType.SUCCESS then
          (* finished = True; the queue is drained; leave the inner loop *)
          let repeats := repeats + 1 in
          if exhausted attempts repeats
          then (Raise (BootloaderException (NoResponse repeats)), self)
          else (Return response_msg, self)
        else if type response_msg =? MessageType.WRONG_NUMBER then
          let (message, self) := wrong_number response_msg message self in
          (* sleep, drain the queue, leave the inner loop *)
          let repeats := repeats + 1 in
          if exhausted attempts repeats
          then (Raise (BootloaderException (NoResponse repeats)), self)
          else wait_response attempts obs' message repeats (transmit message self)
        else
          (Raise (BootloaderException (Failure (type response_msg))), self)
      else
        (* an old message: keep waiting *)
        wait_response attempts obs' message repeats self
  end.

(** The observations of the next response-awaiting request. *)
Definition next_observations (q : list (list (option Message)))
  : list (option Message) * list (list (option Message)) :=
  match q with
  | [] => ([], [])
  | obs :: q' => (obs, q')
  end.

Definition default_counter : Z := Z.lor START_OF_MESSAGE_MASK 0.
Definition default_attempts : Z := 2.

(** [Bootloader._send].  The [timeout] argument only sets how long a
    blocking [get] waits; what it returns is given by [msg_queue]. *)
Definition _send (subject : Z) (data : list Z) (counter : Z)
  (response : bool) (attempts : Z) : M (option Message) :=
  fun self =>
    let message :=
      Build_Message (ProgrammeableBoard.id (board self)) MessageType.REQUEST
        subject (msg_number self) counter data in
    if negb response then
      let self := transmit message self in
      (Return None, set_msg_number self (Z.land (msg_number self + 1) 0xff))
    else
      let (obs, rest) := next_observations (msg_queue self) in
      let self := set_msg_queue self rest in
      match wait_response attempts obs message 0 (transmit message self) with
      | (Return response_msg, self) =>
          (Return (Some response_msg),
           set_msg_number self (Z.land (msg_number self + 1) 0xff))
      | (Raise e, self) => (Raise e, self)
      | (Diverge, self) => (Diverge, self)
      | (OutOfFuel, self) => (OutOfFuel, self)
      end.

(** ** The page programmer: [Bootloader.program_page] *)

(** A Python number used where only an [int] is accepted ([|], [range], a
    slice index, a byte of a frame). *)
Definition as_int (x : pynum) : M Z :=
  match x with
  | PInt z => ret z
  | PFloat _ => raise TypeError
  end.

(** [x * 4] and [x * 4 + 4] *)
Definition py_mul4 (x : pynum) : pynum :=
  match x with
  | PInt z => PInt (z * 4)
  | PFloat q => PFloat (Qred (q * 4))
  end.

(** [data[x*4 : x*4 + 4]] *)
Definition unit_slice (data : list Z) (x : pynum) : M (list Z) :=
  a <- as_int (py_mul4 x) ;;
  b <- as_int (py_add (py_mul4 x) (PInt 4)) ;;
  ret (py_slice data a b).

(** Lines 246-248: the [SET_ADDRESS] request, unless the address is already
    set.  The payload is [[page >> 8, page & 0xff, 0, offset]]; a [float]
    offset cannot be a byte of a frame.  (The loop does not get here with
    one: [offset] turns into a float only after a block of size 1.0, which
    leaves the address set, and the next slice of the data raises first.) *)
Definition set_address (page : Z) (offset : pynum) (addressAlreadySet : bool)
  : M unit :=
  if addressAlreadySet then ret tt
  else
    o <- as_int offset ;;
    _send MessageSubject.SET_ADDRESS [Z.shiftr page 8; Z.land page 0xff; 0; o]
      default_counter true default_attempts ;;
    ret tt.

(** The [for k in range(blocksize - 2, 0, -1)] loop, [n] iterations left;
    returns the final [i]. *)
Fixpoint middle_frames (n : nat) (i : Z) (data : list Z) : M Z :=
  match n with
  | O => ret i
  | S n' =>
      let i := i + 1 in
      payload <- unit_slice data (PInt i) ;;
      _send MessageSubject.DATA payload (Z.of_nat n) false default_attempts ;;
      middle_frames n' i data
  end.

(** Lines 253-276: one block of [blocksize] units at [offset]. *)
Definition send_block (blocksize offset : pynum) (data : list Z)
  : M (option Message) :=
  if py_eq blocksize (PInt 1) then
    payload <- unit_slice data offset ;;
    _send MessageSubject.DATA payload default_counter true default_attempts
  else
    let i := offset in
    (* start of a new block *)
    c <- as_int (py_sub blocksize (PInt 1)) ;;
    payload <- unit_slice data i ;;
    _send MessageSubject.DATA payload (Z.lor START_OF_MESSAGE_MASK c) false
      default_attempts ;;
    k0 <- as_int (py_sub blocksize (PInt 2)) ;;
    i <- as_int i ;;
    i <- middle_frames (Z.to_nat k0) i data ;;
    (* wait for the response for the last message of this block *)
    let i := i + 1 in
    payload <- unit_slice data (PInt i) ;;
    _send MessageSubject.DATA payload 0 true default_attempts.

(** The [while remaining > 0] loop with its [try] / [except].  [answer] is
    [None] while the variable is unbound. *)
Fixpoint page_loop (fuel : nat) (page : Z) (data : list Z)
  (remaining blocksize offset : pynum) (addressAlreadySet : bool)
  (answer : option (option Message)) : M (option (option Message)) :=
  fun self =>
    if negb (py_gt remaining (PInt 0)) then (Return answer, self)
    else
      match fuel with
      | O => (OutOfFuel, self)
      | S fuel' =>
          (* except BootloaderException *)
          let handler (blocksize : pynum) (e : exn) (self : Bootloader) :=
            if py_gt blocksize (PInt 1)
            then page_loop fuel' page data remaining (py_truediv blocksize 2)
                   offset false answer self
            else (Raise e, self) in
          match set_address page offset addressAlreadySet self with
          | (Return _, self) =>
              let blocksize :=
                if py_lt remaining blocksize then remaining else blocksize in
              match send_block blocksize offset data self with
              | (Return r, self) =>
                  page_loop fuel' page data (py_sub remaining blocksize)
                    blocksize (py_add offset blocksize) true (Some r) self
              | (Raise (BootloaderException w), self) =>
                  handler blocksize (BootloaderException w) self
              | (Raise e, self) => (Raise e, self)
              | (Diverge, self) => (Diverge, self)
              | (OutOfFuel, self) => (OutOfFuel, self)
              end
          | (Raise (BootloaderException w), self) =>
              handler blocksize (BootloaderException w) self
          | (Raise e, self) => (Raise e, self)
          | (Diverge, self) => (Diverge, self)
          | (OutOfFuel, self) => (OutOfFuel, self)
          end
      end.

(** [l[i]] for [0 <= i] *)
Definition py_index {A : Type} (l : list A) (i : nat) : M A :=
  match nth_error l i with
  | Some x => ret x
  | None => raise IndexError
  end.

(** The page as it is sent: [data] padded with [0xff] to [pagesize]. *)
Definition amend (pagesize : Z) (data : list Z) : list Z :=
  let size := Z.of_nat (length data) in
  if size <? pagesize
  then data ++ repeat 0xff (Z.to_nat (pagesize - size))
  else data.

(** Lines 296-300: the page echoed by the last answer must be [page]. *)
Definition check_answer (page : Z) (answer : option (option Message))
  : M unit :=
  match answer with
  | None => raise UnboundLocalError
  | Some None => raise AttributeError
  | Some (Some answer) =>
      a0 <- py_index (data answer) 0 ;;
      a1 <- py_index (data answer) 1 ;;
      let returned_page := Z.lor (Z.shiftl a0 8) a1 in
      if negb (returned_page =? page)
      then raise (BootloaderException (PageMismatch page))
      else ret tt
  end.

(** [Bootloader.program_page] *)
Definition program_page (fuel : nat) (page : Z) (data : list ascii)
  (addressAlreadySet : bool) : M unit :=
  fun self =>
    let data := map ord data in
    let pagesize := ProgrammeableBoard.pagesize (board self) in
    let data := amend pagesize data in
    let remaining := py_truediv (PInt pagesize) 4 in
    let blocksize := PInt 64 in
    let offset := PInt 0 in
    (answer <- page_loop fuel page data remaining blocksize offset
                 addressAlreadySet None ;;
     check_answer page answer) self.

(** ** The driver: [identify], [start_app], [program] *)

(** [Bootloader._start_bootloader_command]: [pass] in the base class. *)
Definition _start_bootloader_command : M unit := ret tt.

Definition update_board (f : ProgrammeableBoard.t -> ProgrammeableBoard.t)
  : M unit :=
  fun self => (Return tt, set_board self (f (board self))).

(** The table [{0: 32, 1: 64, 2: 128, 3: 256}] *)
Definition pagesize_table (code : Z) : M Z :=
  if code =? 0 then ret 32
  else if code =? 1 then ret 64
  else if code =? 2 then ret 128
  else if code =? 3 then ret 256
  else raise KeyError.

(** Lines 213-222: the board is filled in field by field from the answer. *)
Definition fill_board (response : option Message) : M unit :=
  match response with
  | None => raise AttributeError
  | Some response =>
      d0 <- py_index (data response) 0 ;;
      update_board (fun b =>
        ProgrammeableBoard.Build (ProgrammeableBoard.id b)
          (ProgrammeableBoard.connected b) (Some (Z.shiftr d0 4))
          (ProgrammeableBoard.version b) (ProgrammeableBoard.pages b)
          (ProgrammeableBoard.pagesize b)) ;;
      update_board (fun b =>
        ProgrammeableBoard.Build (ProgrammeableBoard.id b)
          (ProgrammeableBoard.connected b) (ProgrammeableBoard.bootloader_type b)
          (Z.land d0 0x0F) (ProgrammeableBoard.pages b)
          (ProgrammeableBoard.pagesize b)) ;;
      d1 <- py_index (data response) 1 ;;
      size <- pagesize_table d1 ;;
      update_board (fun b =>
        ProgrammeableBoard.Build (ProgrammeableBoard.id b)
          (ProgrammeableBoard.connected b) (ProgrammeableBoard.bootloader_type b)
          (ProgrammeableBoard.version b) (ProgrammeableBoard.pages b) size) ;;
      d2 <- py_index (data response) 2 ;;
      d3 <- py_index (data response) 3 ;;
      update_board (fun b =>
        ProgrammeableBoard.Build (ProgrammeableBoard.id b)
          (ProgrammeableBoard.connected b) (ProgrammeableBoard.bootloader_type b)
          (ProgrammeableBoard.version b) (Z.shiftl d2 8 + d3)
          (ProgrammeableBoard.pagesize b)) ;;
      update_board (fun b =>
        ProgrammeableBoard.Build (ProgrammeableBoard.id b) true
          (ProgrammeableBoard.bootloader_type b) (ProgrammeableBoard.version b)
          (ProgrammeableBoard.pages b) (ProgrammeableBoard.pagesize b))
  end.

(** The [while True] loop of [identify]: a [BootloaderException] of the
    request starts it again. *)
Fixpoint identify_loop (fuel : nat) : M (option Message) :=
  fun self =>
    match fuel with
    | O => (OutOfFuel, self)
    | S fuel' =>
        match (_start_bootloader_command ;;
               _send MessageSubject.IDENTIFY [] default_counter true 10) self
        with
        | (Raise (BootloaderException _), self) => identify_loop fuel' self
        | r => r
        end
    end.

(** [Bootloader.identify] *)
Definition identify (fuel : nat) : M unit :=
  response <- identify_loop fuel ;;
  fill_board response.

(** [Bootloader.start_app] *)
Definition start_app : M unit :=
  _send MessageSubject.START_APPLICATION [] default_counter true
    default_attempts ;;
  ret tt.

(** [functools.reduce(lambda x,y: x + y, map(lambda x: len(x), segments))]:
    a [TypeError] on an empty sequence. *)
Definition total_size (segments : list (list ascii)) : M Z :=
  match map (fun x => Z.of_nat (length x)) segments with
  | [] => raise TypeError
  | x :: xs => ret (fold_left Z.add xs x)
  end.

(** [int(math.ceil(float(totalsize) / float(pagesize)))]; both conversions
    are exact below 2^53. *)
Definition page_count (totalsize pagesize : Z) : M Z :=
  if pagesize =? 0 then raise ZeroDivisionError
  else ret (Qceiling (inject_Z totalsize / inject_Z pagesize)).

(** The [for i in range(pages)] loop of [program], [n] pages left. *)
Fixpoint write_pages (fuel : nat) (n : nat) (i : Z)
  (segments : list (list ascii)) (pagesize : Z)
  (segment_number : nat) (offset : Z) (addressSet : bool) : M unit :=
  match n with
  | O => ret tt
  | S n' =>
      data <- py_index segments segment_number ;;
      program_page fuel i (py_slice data offset (offset + pagesize))
        addressSet ;;
      let offset := offset + pagesize in
      if offset >=? Z.of_nat (length data)
      then write_pages fuel n' (i + 1) segments pagesize (S segment_number) 0
             true
      else write_pages fuel n' (i + 1) segments pagesize segment_number offset
             true
  end.

(** [Bootloader.program] *)
Definition program (fuel : nat) (segments : list (list ascii)) : M unit :=
  (* try to connect to the bootloader *)
  identify fuel ;;
  totalsize <- total_size segments ;;
  fun self =>
    let pagesize := ProgrammeableBoard.pagesize (board self) in
    (pages <- page_count totalsize pagesize ;;
     if pages >? ProgrammeableBoard.pages (board self)
     then raise (BootloaderException TooLarge)
     else
       write_pages fuel (Z.to_nat pages) 0 segments pagesize 0 0 false ;;
       (* start the new application *)
       start_app) self.

(** ** The inbound dispatcher: [BootloaderFilter] and [_get_message] *)

Module BootloaderFilter.
(** [BootloaderFilter.check] *)
Definition check (message : can.Message) : bool :=
  if negb (can.extended message) && negb (can.rtr message)
     && (can.id message =? 0x7fe)
  then true
  else false.
End BootloaderFilter.

(** [Bootloader._get_message]; [inbox] is the content of the queue that
    [msg_queue.put] appends to. *)
Definition _get_message (self : Bootloader) (can_message : can.Message)
  (inbox : list Message) : outcome unit * list Message :=
  match decode can_message with
  | Return message =>
      if negb (board_id message =? ProgrammeableBoard.id (board self))
      then (* message is for someone other *) (Return tt, inbox)
      else (Return tt, inbox ++ [message])
  | Raise (BootloaderException _) =>
      (* message has an incorrect format *) (Return tt, inbox)
  | Raise e => (Raise e, inbox)
  | Diverge => (Diverge, inbox)
  | OutOfFuel => (OutOfFuel, inbox)
  end.

(** * Vocabulary of the properties *)

(** ** The codec *)

(** The field ranges of a well-formed message. *)
Record valid_message (m : Message) : Prop := {
  valid_board_id : 0 <= board_id m <= 255;
  valid_type : 0 <= type m <= 3;
  valid_subject : 0 <= subject m <= 63;
  valid_number : 0 <= number m <= 255;
  valid_data_counter : 0 <= data_counter m <= 255;
  valid_data : (length (data m) <= 4)%nat
}.

(** When [decode] rejects a frame. *)
Definition bad_format (message : can.Message) : Prop :=
  can.extended message = true \/ can.rtr message = true
  \/ (length (can.data message) < 4)%nat.

(** What a frame on the wire shows of a request: its subject, its counter
    and its payload. *)
Definition frame_subject (f : can.Message) : Z :=
  Z.land (nth 1 (can.data f) 0) 0x3f.

Definition frame_view (f : can.Message) : Z * Z * list Z :=
  (frame_subject f, nth 3 (can.data f) 0, skipn 4 (can.data f)).

(** Whether a frame is a [DATA] request, and whether it writes a page. *)
Definition is_data (f : can.Message) : bool :=
  frame_subject f =? MessageSubject.DATA.

Definition is_page_write (f : can.Message) : bool :=
  (frame_subject f =? MessageSubject.SET_ADDRESS) || is_data f.

(** ** The request engine *)

(** What the blocking waits of the next response-awaiting request return. *)
Definition observations (self : Bootloader) : list (option Message) :=
  fst (next_observations (msg_queue self)).

(** The request [_send] builds. *)
Definition request (self : Bootloader) (subj : Z) (payload : list Z)
  (counter : Z) : Message :=
  Build_Message (ProgrammeableBoard.id (board self)) MessageType.REQUEST subj
    (msg_number self) counter payload.

(** A request observes no resynchronising answer: no [WRONG_NUMBER] response
    with the subject of the request is among its observations. *)
Definition resync_free (subj : Z) (obs : list (option Message)) : Prop :=
  forall r, In (Some r) obs -> subject r = subj ->
            type r <> MessageType.WRONG_NUMBER.



(** ** Block framing, as the specification words it *)

(** One [DATA] frame of a block. *)
Record block_frame : Type := Build_block_frame {
  frame_counter : Z;
  frame_payload : list Z;
  frame_response : bool
}.

(** The [j]-th frame of a block of [B] units at unit offset [O]: counter
    [0x80 | (B-1)] for the first and [B-1-j] for the others, payload
    [data[(O+j)*4 : (O+j)*4+4]], a response awaited for the last only. *)
Definition block_frame_at (B O : Z) (data : list Z) (j : nat) : block_frame :=
  let j := Z.of_nat j in
  Build_block_frame
    (if j =? 0 then Z.lor 0x80 (B - 1) else B - 1 - j)
    (py_slice data ((O + j) * 4) ((O + j) * 4 + 4))
    (j =? B - 1).

Definition block_frames (B O : Z) (data : list Z) : list block_frame :=
  map (block_frame_at B O data) (seq 0 (Z.to_nat B)).

Definition block_frame_view (f : block_frame) : Z * Z * list Z :=
  (MessageSubject.DATA, frame_counter f, frame_payload f).

Definition send_frame (f : block_frame) : M (option Message) :=
  _send MessageSubject.DATA (frame_payload f) (frame_counter f)
    (frame_response f) default_attempts.

(** The frames sent one after the other; the result is the last answer. *)
Fixpoint send_frames_seq (answer : option Message) (fs : list block_frame)
  : M (option Message) :=
  match fs with
  | [] => ret answer
  | f :: fs' => r <- send_frame f ;; send_frames_seq r fs'
  end.

(** The frames [fs], then [rest]. *)
Fixpoint send_prefix (fs : list block_frame) (rest : M (option Message))
  : M (option Message) :=
  match fs with
  | [] => rest
  | f :: fs' => send_frame f ;; send_prefix fs' rest
  end.

(** ** The driver *)

(** The sum of the segment lengths. *)
Definition image_size (segments : list (list ascii)) : Z :=
  fold_right Z.add 0 (map (fun x => Z.of_nat (length x)) segments).

(** The [IDENTIFY] request with number [n]. *)
Definition identify_frame (board_id n : Z) : can.Message :=
  encode (Build_Message board_id MessageType.REQUEST MessageSubject.IDENTIFY n
            default_counter []).

(** ** Sessions and messages of the scenarios *)

(** Messages from and to board 5. *)
Definition identify_request : Message :=
  Build_Message 5 MessageType.REQUEST MessageSubject.IDENTIFY 0 0x80 [].

Definition success_identify : Message :=
  Build_Message 5 MessageType.SUCCESS MessageSubject.IDENTIFY 0 0x80
    [0x12; 0x02; 0x00; 0x80].

Definition wrong_number_0x42 : Message :=
  Build_Message 5 MessageType.WRONG_NUMBER MessageSubject.IDENTIFY 0x42 0x80 [].

Definition error_identify : Message :=
  Build_Message 5 MessageType.ERROR MessageSubject.IDENTIFY 0 0x80 [].

Definition success (subj : Z) (payload : list Z) : option Message :=
  Some (Build_Message 5 MessageType.SUCCESS subj 0 0x80 payload).



(** A fresh session whose first request meets two timeouts. *)
Definition silent_bus : Bootloader := init 5 [[None; None]].

Definition eight_bytes : list Z := [1; 2; 3; 4; 5; 6; 7; 8].

(** A board as [identify] leaves it, with the given page size, and a session
    on it. *)
Definition identified_board (pagesize : Z) : ProgrammeableBoard.t :=
  ProgrammeableBoard.Build 5 true (Some 1) 2 128 pagesize.

Definition session (pagesize : Z) (inbound : list (list (option Message)))
  : Bootloader :=
  Build_Bootloader (identified_board pagesize) 0 [] inbound.

(** Scenario S6: a board of 64 pages of 128 bytes and an image of 9000
    bytes. *)
Definition large_image : list (list ascii) :=
  [repeat "a"%char (Z.to_nat 9000)].

Definition small_board : Bootloader :=
  init 5 [[Some (Build_Message 5 MessageType.SUCCESS MessageSubject.IDENTIFY
                   0 0x80 [0x12; 0x02; 0x00; 0x40])]].

(** ** Vocabulary of the further properties *)

(** A frame whose data are bytes, at most eight of them. *)
Definition byte_frame (f : can.Message) : Prop :=
  Forall (fun b => 0 <= b <= 255) (can.data f)
  /\ (length (can.data f) <= 8)%nat.

(** The frame by which the target sends [m]: the layout of [encode] under
    the identifier 0x7fe. *)
Definition response_frame (m : Message) : can.Message :=
  can.Build_Message 0x7fe (can.data (encode m)) false false.

(** What a request looks at: the timeouts and the messages with its own
    subject. *)
Definition relevant (subj : Z) (o : option Message) : bool :=
  match o with
  | None => true
  | Some r => subject r =? subj
  end.

(** The numbers of the observed messages are bytes. *)
Definition byte_numbers (obs : list (option Message)) : Prop :=
  forall r, In (Some r) obs -> 0 <= number r < 256.

(** What the wait for the answer to a page observes first: a [SUCCESS]
    answer to [DATA] that echoes page [i] in its first two bytes. *)
Definition page_answer (i : Z) (obs : list (option Message)) : bool :=
  match obs with
  | Some r :: _ =>
      (subject r =? MessageSubject.DATA) && (type r =? MessageType.SUCCESS)
      && match data r with
         | a0 :: a1 :: _ => Z.lor (Z.shiftl a0 8) a1 =? i
         | _ => false
         end
  | _ => false
  end.

(** The pages [i], [i+1], ... are answered one after the other. *)
Fixpoint page_answers (i : Z) (answers : list (list (option Message)))
  : bool :=
  match answers with
  | [] => true
  | obs :: answers => page_answer i obs && page_answers (i + 1) answers
  end.

(** The payloads of a run of frames, one after the other. *)
Definition payloads (frames : list can.Message) : list Z :=
  concat (map (fun f => skipn 4 (can.data f)) frames).

(** A frame with the subject [subj]. *)
Definition has_subject (subj : Z) (f : can.Message) : Prop :=
  frame_subject f = subj.

(** From [self] to [self'] the board is kept and only frames that satisfy
    [P] are transmitted. *)
Definition extends (P : can.Message -> Prop) (self self' : Bootloader)
  : Prop :=
  board self' = board self
  /\ exists frames,
      interface self' = interface self ++ frames /\ Forall P frames.

(** A method that transmits only frames that satisfy [P] and keeps the
    board, whatever its outcome. *)
Definition sends_only {A : Type} (P : can.Message -> Prop) (c : M A) : Prop :=
  forall self o self', c self = (o, self') -> extends P self self'.

(** ** Frames and messages of the further scenarios *)

(** An answer to [IDENTIFY] as the target puts it on the bus. *)
Definition identify_answer_frame : can.Message :=
  can.Build_Message 0x7fe [0x05; 0x41; 0x00; 0x80; 0x12; 0x02; 0x00; 0x80]
    false false.

(** A late [ERROR] answer to a [DATA] request. *)
Definition stale_data_answer : Message :=
  Build_Message 5 MessageType.ERROR MessageSubject.DATA 7 0 [].

(** An answer to [IDENTIFY] with a page size code outside the table. *)
Definition bad_code_answer : Message :=
  Build_Message 5 MessageType.SUCCESS MessageSubject.IDENTIFY 0 0x80
    [0x12; 0x07; 0x00; 0x80].

(** A board of 128 pages of 256 bytes that answers [IDENTIFY] at once. *)
Definition identify_256 : list (option Message) :=
  [Some (Build_Message 5 MessageType.SUCCESS MessageSubject.IDENTIFY 0 0x80
           [0x12; 0x03; 0x00; 0x80])].

(** The answer to the last [DATA] frame of page [i]. *)
Definition page_written (i : Z) : list (option Message) :=
  [success MessageSubject.DATA [Z.shiftr i 8; Z.land i 0xff]].

(** A session with that board in which every request of the programming
    of a one-page image is answered at once. *)
Definition one_page_session : Bootloader :=
  init 5 [identify_256; [success MessageSubject.SET_ADDRESS []];
          page_written 0; [success MessageSubject.START_APPLICATION []]].

(** A session with that board for an image without bytes. *)
Definition no_page_session : Bootloader :=
  init 5 [identify_256; [success MessageSubject.START_APPLICATION []]].

(** * Properties *)

(** ** Python slices *)

Section Slices.
Context {A : Type}.

Lemma py_slice_nonneg (l : list A) (a b : Z) :
    0 <= a <= b -> b <= Z.of_nat (length l) ->
    py_slice l a b = firstn (Z.to_nat (b - a)) (skipn (Z.to_nat a) l).
  Proof.
    intros Hab Hb. unfold py_slice, clamp_index.
    destruct (Z.ltb_spec a 0); [lia|].
    destruct (Z.ltb_spec b 0); [lia|].
    rewrite !Z.min_l by lia. reflexivity.
  Qed.

Lemma py_slice_from_skipn (l : list A) (a : Z) :
    0 <= a <= Z.of_nat (length l) ->
    py_slice_from l a = skipn (Z.to_nat a) l.
  Proof.
    intros Ha. unfold py_slice_from. rewrite py_slice_nonneg by lia.
    apply firstn_all2. rewrite length_skipn. lia.
  Qed.

Lemma py_slice_length (l : list A) (a b : Z) :
    0 <= a <= b -> b <= Z.of_nat (length l) ->
    Z.of_nat (length (py_slice l a b)) = b - a.
  Proof.
    intros Hab Hb. rewrite py_slice_nonneg by lia.
    rewrite length_firstn, length_skipn. lia.
  Qed.

Lemma firstn_plus (n m : nat) (l : list A) :
    firstn (n + m) l = firstn n l ++ firstn m (skipn n l).
  Proof.
    revert l. induction n as [|n IH]; intros [|x l]; simpl;
      rewrite ?firstn_nil; try reflexivity.
    now rewrite IH.
  Qed.

  (** Two adjacent slices make one slice. *)
Lemma py_slice_app (l : list A) (a b c : Z) :
    0 <= a <= b -> b <= c -> c <= Z.of_nat (length l) ->
    py_slice l a b ++ py_slice l b c = py_slice l a c.
  Proof.
    intros Hab Hbc Hc. rewrite !py_slice_nonneg by lia.
    replace (Z.to_nat (c - a)) with (Z.to_nat (b - a) + Z.to_nat (c - b))%nat
      by lia.
    rewrite firstn_plus, skipn_skipn. do 3 f_equal. lia.
  Qed.
End Slices.

(** ** The codec *)

(** The header byte packs [type] and [subject]. *)
Lemma header_type (t s : Z) :
  0 <= s < 64 -> Z.shiftr (Z.lor (Z.shiftl t 6) s) 6 = t.
Proof.
  intros Hs. rewrite Z.shiftr_lor, Z.shiftr_shiftl_l by lia.
  rewrite Z.sub_diag, Z.shiftl_0_r, (Z.shiftr_div_pow2 s) by lia.
  rewrite Z.div_small by (simpl; lia). apply Z.lor_0_r.
Qed.

Lemma header_subject (t s : Z) :
  0 <= s < 64 -> Z.land (Z.lor (Z.shiftl t 6) s) 0x3f = s.
Proof.
  intros Hs. change 0x3f with (Z.ones 6).
  rewrite Z.land_ones, Z.shiftl_mul_pow2 by lia.
  change (2 ^ 6) with 64.
  rewrite <- (Z.land_ones _ 6) by lia. rewrite Z.land_lor_distr_l.
  rewrite !Z.land_ones by lia. change (2 ^ 6) with 64.
  rewrite Z.mod_mul by lia. rewrite Z.mod_small by lia. reflexivity.
Qed.

(** C7: for every message with fields in their valid ranges, decoding the
    frame produced by [encode] gives the message back; the second byte of the
    frame is [(type << 6) | subject] and unpacks to exactly that type and
    subject. *)
Theorem decode_encode (m : Message) :
  valid_message m ->
  decode (encode m) = Return m
  /\ nth_error (can.data (encode m)) 1
     = Some (Z.lor (Z.shiftl (type m) 6) (subject m))
  /\ Z.shiftr (Z.lor (Z.shiftl (type m) 6) (subject m)) 6 = type m
  /\ Z.land (Z.lor (Z.shiftl (type m) 6) (subject m)) 0x3f = subject m.
Proof.
  intros [_ _ Hs _ _ _].
  assert (Hs' : 0 <= subject m < 64) by lia.
  split; [|split; [reflexivity|split]].
  - destruct m as [b t s n c d].
    cbn [subject] in Hs'.
    unfold decode, encode.
    cbn [can.data can.extended can.rtr board_id type subject number
         data_counter data app].
    rewrite header_type, header_subject by assumption.
    rewrite !orb_false_r.
    replace (Z.of_nat (length (b :: Z.lor (Z.shiftl t 6) s :: n :: c :: d)) <? 4)
      with false by (symmetry; apply Z.ltb_ge; simpl length; lia).
    change (b :: Z.lor (Z.shiftl t 6) s :: n :: c :: d)
      with ([b; Z.lor (Z.shiftl t 6) s; n; c] ++ d).
    rewrite py_slice_from_skipn by (rewrite length_app; simpl length; lia).
    reflexivity.
  - apply header_type; assumption.
  - apply header_subject; assumption.
Qed.

Lemma decode_encode_witness :
  decode (encode identify_request) = Return identify_request
  /\ nth_error (can.data (encode identify_request)) 1 = Some 1
  /\ Z.shiftr 1 6 = 0 /\ Z.land 1 0x3f = 1.
Proof.
  apply (decode_encode (m := identify_request)).
  split;
    unfold identify_request, MessageType.REQUEST, MessageSubject.IDENTIFY;
    simpl; lia.
Defined.

(** C8: [decode] raises (its "wrong format" exception) if and only if the
    frame is extended, or is RTR, or has fewer than four data bytes; any
    other frame decodes, whatever its bytes are, to the message whose type
    and subject are the two parts of the second byte. *)
Theorem decode_fails_iff (message : can.Message) :
  (decode message = Raise (BootloaderException BadFormat)
   <-> bad_format message)
  /\ ((exists e, decode message = Raise e) <-> bad_format message)
  /\ (bad_format message \/
      exists d0 d1 d2 d3 rest,
        can.data message = d0 :: d1 :: d2 :: d3 :: rest
        /\ decode message
           = Return (Build_Message d0 (Z.shiftr d1 6) (Z.land d1 0x3f) d2 d3
                       rest)).
Proof.
  destruct message as [i d e r]. unfold bad_format, decode. simpl.
  destruct e; simpl.
  { rewrite orb_true_r. simpl. intuition eauto. }
  destruct r; simpl.
  { rewrite orb_true_r. intuition eauto. }
  rewrite !orb_false_r.
  destruct d as [|d0 [|d1 [|d2 [|d3 rest]]]];
    try (simpl; repeat split; intros; eauto; try lia; right; right; simpl; lia).
  assert (Hlen : (Z.of_nat (length (d0 :: d1 :: d2 :: d3 :: rest)) <? 4) = false).
  { apply Z.ltb_ge. simpl length. lia. }
  rewrite Hlen.
  change (d0 :: d1 :: d2 :: d3 :: rest) with ([d0; d1; d2; d3] ++ rest).
  rewrite py_slice_from_skipn by (rewrite length_app; simpl; lia).
  simpl skipn. simpl app.
  repeat split.
  - discriminate.
  - intros [H|[H|H]]; try discriminate. simpl in H. lia.
  - intros [x H]. discriminate.
  - intros [H|[H|H]]; try discriminate. simpl in H. lia.
  - right. do 5 eexists. split; reflexivity.
Qed.

(** ** The request engine *)

Lemma wrong_number_subject r message self :
  subject (fst (wrong_number r message self)) = subject message.
Proof. unfold wrong_number. now destruct (number message =? 0). Qed.

Lemma wrong_number_invariant r message self :
  number message = msg_number self ->
  number (fst (wrong_number r message self))
  = msg_number (snd (wrong_number r message self)).
Proof. unfold wrong_number. now destruct (number message =? 0). Qed.

Lemma wrong_number_frame r message self :
  fst (wrong_number r message self)
  = set_number message (number (fst (wrong_number r message self))).
Proof.
  unfold wrong_number. destruct message as [b t s n c d].
  cbn [number]. destruct (n =? 0); reflexivity.
Qed.

Lemma wrong_number_state r message self :
  board (snd (wrong_number r message self)) = board self
  /\ interface (snd (wrong_number r message self)) = interface self
  /\ msg_queue (snd (wrong_number r message self)) = msg_queue self.
Proof. unfold wrong_number. now destruct (number message =? 0). Qed.

(** Case analysis on an answer, in the order of the source: a success, a
    wrong number, another answer to this request, an old message. *)
Ltac response_cases r message :=
  destruct (Z.eqb_spec (subject r) (subject message)) as [Hsubj|Hsubj];
  [ destruct (Z.eqb_spec (type r) MessageType.SUCCESS) as [Hsucc|Hsucc];
    [ | destruct (Z.eqb_spec (type r) MessageType.WRONG_NUMBER) as [Hwn|Hwn] ]
  | ].

Ltac no_frames :=
  exists []; rewrite app_nil_r; split; [congruence|constructor].

Section Waiting.
Variable attempts : Z.

Lemma wait_silent_inv k message repeats self o self' :
    wait_silent k attempts message repeats self = (o, self') ->
    board self' = board self
    /\ msg_number self' = msg_number self
    /\ msg_queue self' = msg_queue self
    /\ (forall r, o <> Return r)
    /\ exists frames,
        interface self' = interface self ++ frames
        /\ Forall (eq (encode message)) frames.
  Proof.
    revert repeats self. induction k as [|k IH]; intros repeats self; simpl.
    - destruct (exhausted attempts (repeats + 1)); intros H; inversion H;
        subst; repeat split; try discriminate;
        exists []; now rewrite app_nil_r.
    - destruct (exhausted attempts (repeats + 1)).
      + intros H; inversion H; subst; repeat split; try discriminate.
        exists []; now rewrite app_nil_r.
      + intros H. apply IH in H.
        destruct H as (Hb & Hn & Hq & Hr & frames & Hi & Hf).
        repeat split; try assumption.
        exists (encode message :: frames). split.
        * rewrite Hi. simpl. now rewrite <- app_assoc.
        * now constructor.
  Qed.

  (** The loops touch neither the board nor the pending traffic of later
      requests. *)
Lemma wait_response_state obs message repeats self o self' :
    wait_response attempts obs message repeats self = (o, self') ->
    board self' = board self /\ msg_queue self' = msg_queue self.
  Proof.
    revert message repeats self.
    induction obs as [|[r|] obs IH]; intros message repeats self; simpl.
    - intros H. apply wait_silent_inv in H. tauto.
    - destruct (wrong_number r message self) as [message1 self1] eqn:Hw.
      pose proof (wrong_number_state r message self) as Hs.
      rewrite Hw in Hs. simpl in Hs. destruct Hs as (Hb & _ & Hq).
      response_cases r message.
      + destruct (exhausted attempts (repeats + 1));
          intros H; inversion H; subst; tauto.
      + destruct (exhausted attempts (repeats + 1)); intros H.
        * inversion H; subst; tauto.
        * apply IH in H. simpl in H. destruct H. split; congruence.
      + intros H; inversion H; subst; tauto.
      + apply IH.
    - destruct (exhausted attempts (repeats + 1)); intros H.
      + inversion H; subst; tauto.
      + apply IH in H. simpl in H. tauto.
  Qed.

  (** Every frame the loops transmit is the request itself, up to its
      number. *)
Lemma wait_response_frames obs message repeats self o self' :
    wait_response attempts obs message repeats self = (o, self') ->
    exists frames,
      interface self' = interface self ++ frames
      /\ Forall (fun f => exists n, f = encode (set_number message n)) frames.
  Proof.
    revert message repeats self.
    induction obs as [|[r|] obs IH]; intros message repeats self; simpl.
    - intros H. apply wait_silent_inv in H.
      destruct H as (_ & _ & _ & _ & frames & Hi & Hf).
      exists frames. split; [assumption|].
      eapply Forall_impl; [|exact Hf]. intros f <-.
      exists (number message). now destruct message.
    - destruct (wrong_number r message self) as [message1 self1] eqn:Hw.
      pose proof (wrong_number_state r message self) as Hs.
      pose proof (wrong_number_frame r message self) as Hm.
      rewrite Hw in Hs, Hm. simpl in Hs, Hm. destruct Hs as (_ & Hi & _).
      response_cases r message.
      + destruct (exhausted attempts (repeats + 1));
          intros H; inversion H; subst; no_frames.
      + destruct (exhausted attempts (repeats + 1)); intros H.
        * inversion H; subst; no_frames.
        * apply IH in H. destruct H as (frames & Hi' & Hf).
          exists (encode message1 :: frames). split.
          -- rewrite Hi'. simpl. rewrite Hi. now rewrite <- app_assoc.
          -- constructor.
             ++ exists (number message1). now rewrite Hm at 1.
             ++ eapply Forall_impl; [|exact Hf]. intros f [n ->].
                exists n. rewrite Hm. now destruct message.
      + intros H; inversion H; subst; no_frames.
      + apply IH.
    - destruct (exhausted attempts (repeats + 1)); intros H.
      + inversion H; subst; no_frames.
      + apply IH in H. destruct H as (frames & Hi' & Hf).
        exists (encode message :: frames). split.
        * rewrite Hi'. simpl. now rewrite <- app_assoc.
        * constructor; [|assumption].
          exists (number message). now destruct message.
  Qed.
  (** What the loops do to [msg_number]: nothing, unless the request
      carried number 0 and a [WRONG_NUMBER] answer to it was taken over. *)
Lemma wait_response_msg_number obs message repeats self o self' :
    number message = msg_number self ->
    wait_response attempts obs message repeats self = (o, self') ->
    msg_number self' = msg_number self
    \/ (msg_number self = 0
        /\ exists r, In (Some r) obs
                     /\ subject r = subject message
                     /\ type r = MessageType.WRONG_NUMBER
                     /\ msg_number self' = number r).
  Proof.
    revert message repeats self.
    induction obs as [|[r|] obs IH]; intros message repeats self Hinv; simpl.
    - intros H. apply wait_silent_inv in H. left. tauto.
    - pose proof (wrong_number_invariant r message self Hinv) as Hinv1.
      pose proof (wrong_number_subject r message self) as Hsub1.
      assert (Hnum : msg_number (snd (wrong_number r message self))
                     = msg_number self
                     \/ (msg_number self = 0
                         /\ msg_number (snd (wrong_number r message self))
                            = number r)).
      { unfold wrong_number. destruct (Z.eqb_spec (number message) 0).
        - right. split; [congruence|reflexivity].
        - left. reflexivity. }
      destruct (wrong_number r message self) as [message1 self1].
      simpl in Hinv1, Hsub1, Hnum.
      response_cases r message.
      + destruct (exhausted attempts (repeats + 1));
          intros H; inversion H; subst; now left.
      + assert (Hhere : msg_number self1 = msg_number self
                        \/ (msg_number self = 0
                            /\ exists r0, In (Some r0) (Some r :: obs)
                                 /\ subject r0 = subject message
                                 /\ type r0 = MessageType.WRONG_NUMBER
                                 /\ msg_number self1 = number r0)).
        { destruct Hnum as [Hn|[Hz Hn]]; [now left|].
          right. split; [assumption|]. exists r. simpl. tauto. }
        destruct (exhausted attempts (repeats + 1)); intros H.
        * inversion H; subst. exact Hhere.
        * apply IH in H; [|exact Hinv1]. simpl in H.
          destruct H as [H|(Hz1 & r1 & Hin & Hs1 & Ht1 & Hn1)].
          -- rewrite H. exact Hhere.
          -- right.
             assert (Hz : msg_number self = 0).
             { destruct Hnum as [Hn|[Hz _]]; congruence. }
             split; [assumption|]. exists r1. simpl.
             repeat split; try tauto. congruence.
      + intros H; inversion H; subst; now left.
      + intros H. apply IH in H; [|assumption].
        destruct H as [H|(Hz & r1 & Hin & Hs1 & Ht1 & Hn1)]; [now left|].
        right. split; [assumption|]. exists r1. simpl. tauto.
    - destruct (exhausted attempts (repeats + 1)); intros H.
      + inversion H; subst; now left.
      + apply IH in H; [|assumption]. simpl in H.
        destruct H as [H|(Hz & r1 & Hin & Hs1 & Ht1 & Hn1)]; [now left|].
        right. split; [assumption|]. exists r1. simpl. tauto.
  Qed.


  (** The loops end with [finished] only on a [SUCCESS] answer with the
      subject of the request. *)
Lemma wait_response_return obs message repeats self r self' :
    wait_response attempts obs message repeats self = (Return r, self') ->
    In (Some r) obs
    /\ subject r = subject message
    /\ type r = MessageType.SUCCESS.
  Proof.
    revert message repeats self.
    induction obs as [|[r0|] obs IH]; intros message repeats self; simpl.
    - intros H. apply wait_silent_inv in H.
      destruct H as (_ & _ & _ & Hr & _). now elim (Hr r).
    - pose proof (wrong_number_subject r0 message self) as Hsub1.
      destruct (wrong_number r0 message self) as [message1 self1].
      simpl in Hsub1.
      response_cases r0 message.
      + destruct (exhausted attempts (repeats + 1));
          intros H; inversion H; subst. tauto.
      + destruct (exhausted attempts (repeats + 1)); intros H.
        * inversion H.
        * apply IH in H. rewrite Hsub1 in H. tauto.
      + intros H; inversion H.
      + intros H. apply IH in H. tauto.
    - destruct (exhausted attempts (repeats + 1)); intros H.
      + inversion H.
      + apply IH in H. tauto.
  Qed.
End Waiting.

Lemma land_0xff (n : Z) : Z.land n 0xff = n mod 256.
Proof. change 0xff with (Z.ones 8). now rewrite Z.land_ones by lia. Qed.

(** [_send] with [response=False]: one frame, no wait. *)
Lemma send_no_response subj payload counter attempts self :
  _send subj payload counter false attempts self
  = (Return None,
     set_msg_number (transmit (request self subj payload counter) self)
       ((msg_number self + 1) mod 256)).
Proof. unfold _send. simpl. now rewrite land_0xff. Qed.

(** [_send] with [response=True], in terms of its loops. *)
Lemma send_response_inv subj payload counter attempts self o self' :
  _send subj payload counter true attempts self = (o, self') ->
  exists o1 self1,
    wait_response attempts (observations self)
      (request self subj payload counter) 0
      (transmit (request self subj payload counter)
         (set_msg_queue self (snd (next_observations (msg_queue self)))))
    = (o1, self1)
    /\ ((exists r, o1 = Return r /\ o = Return (Some r)
                   /\ self' = set_msg_number self1
                                ((msg_number self1 + 1) mod 256))
        \/ ((forall r, o <> Return r) /\ self' = self1
            /\ forall e, o = Raise e -> o1 = Raise e)).
Proof.
  unfold _send, observations, request. simpl negb. cbv iota.
  destruct (next_observations (msg_queue self)) as [obs rest]. simpl fst.
  simpl snd.
  match goal with
  | |- context [wait_response ?a ?b ?c ?d ?e] =>
      destruct (wait_response a b c d e) as [o1 self1] eqn:Hw
  end.
  intros H. exists o1, self1. split; [reflexivity|].
  destruct o1; inversion H; subst.
  - left. exists a. now rewrite land_0xff.
  - right. repeat split; try discriminate.
    intros e0 He. injection He as ->. reflexivity.
  - right. repeat split; discriminate.
  - right. repeat split; discriminate.
Qed.


(** After a request that raised. *)
Lemma send_raise_msg_number subj payload counter response attempts self e self' :
  _send subj payload counter response attempts self = (Raise e, self') ->
  msg_number self' = msg_number self
  \/ (msg_number self = 0
      /\ exists r, In (Some r) (observations self)
                   /\ subject r = subj
                   /\ type r = MessageType.WRONG_NUMBER
                   /\ msg_number self' = number r).
Proof.
  intros H. destruct response.
  - apply send_response_inv in H.
    destruct H as (o1 & self1 & Hw & [(r1 & _ & Habs & _)|(_ & -> & _)]).
    + discriminate.
    + apply wait_response_msg_number in Hw; [|reflexivity]. exact Hw.
  - rewrite send_no_response in H. discriminate.
Qed.

(** The frames of one request: the request with the current number first. *)
Lemma send_frames subj payload counter response attempts self o self' :
  _send subj payload counter response attempts self = (o, self') ->
  board self' = board self
  /\ exists frames,
      interface self'
      = interface self ++ encode (request self subj payload counter) :: frames
      /\ Forall (fun f => exists n,
                   f = encode (set_number (request self subj payload counter) n))
           frames.
Proof.
  intros H. destruct response.
  - apply send_response_inv in H.
    destruct H as (o1 & self1 & Hw & Hcases).
    pose proof (wait_response_state _ _ _ _ _ Hw) as [Hb _].
    apply wait_response_frames in Hw. destruct Hw as (frames & Hi & Hf).
    assert (Hself : board self' = board self1
                    /\ interface self' = interface self1).
    { destruct Hcases as [(r & _ & _ & ->)|(_ & -> & _)]; now split. }
    destruct Hself as [Hb' Hi']. simpl in Hb. split; [congruence|].
    exists frames. split; [|assumption].
    rewrite Hi', Hi. simpl. now rewrite <- app_assoc.
  - rewrite send_no_response in H. inversion H; subst. split; [reflexivity|].
    exists []. split; [reflexivity|constructor].
Qed.





(** Scenario S5: [IDENTIFY] at number 0 answered by [WRONG_NUMBER] with
    number 0x42, then by [SUCCESS]: the request is sent again with number
    0x42 and [msg_number] ends at 0x43. *)
Example resync_at_start :
  let success := Build_Message 5 MessageType.SUCCESS MessageSubject.IDENTIFY
                   0x42 0x80 [0x12; 0x02; 0x00; 0x80] in
  let run := _send MessageSubject.IDENTIFY [] default_counter true 10
               (init 5 [[Some wrong_number_0x42; Some success]]) in
  fst run = Return (Some success)
  /\ msg_number (snd run) = 0x43
  /\ interface (snd run)
     = [encode identify_request; encode (set_number identify_request 0x42)].
Proof. repeat split. Qed.



(** C4, as the code has it: when [_send] raises, [msg_number] is what it was
    before the call if the call started with a number other than 0 or
    observed no [WRONG_NUMBER] response with its subject; in the remaining
    case it is either unchanged or the number of such a response. *)
Theorem send_raise_keeps_msg_number (subj : Z) (payload : list Z)
  (counter : Z) (response : bool) (attempts : Z) (self : Bootloader)
  (e : exn) (self' : Bootloader) :
  _send subj payload counter response attempts self = (Raise e, self') ->
  (msg_number self <> 0 \/ resync_free subj (observations self) ->
   msg_number self' = msg_number self)
  /\ (msg_number self' = msg_number self
      \/ (msg_number self = 0
          /\ exists r, In (Some r) (observations self)
                       /\ subject r = subj
                       /\ type r = MessageType.WRONG_NUMBER
                       /\ msg_number self' = number r)).
Proof.
  intros H. pose proof (send_raise_msg_number _ _ _ _ _ _ H) as Hn.
  split; [|exact Hn].
  intros Hfree. destruct Hn as [Hn|(Hz & r & Hin & Hs & Ht & _)].
  - exact Hn.
  - destruct Hfree as [Hnz|Hfree]; [contradiction|].
    exfalso. exact (Hfree r Hin Hs Ht).
Qed.

Lemma send_raise_keeps_msg_number_witness :
  msg_number
    (snd (_send MessageSubject.IDENTIFY [] default_counter true
            default_attempts silent_bus))
  = msg_number silent_bus.
Proof.
  apply (proj1 (@send_raise_keeps_msg_number MessageSubject.IDENTIFY []
                  default_counter true default_attempts silent_bus
                  (BootloaderException (NoResponse 2))
                  (snd (_send MessageSubject.IDENTIFY [] default_counter true
                          default_attempts silent_bus))
                  eq_refl)).
  right. intros r [Hr|[Hr|[]]]; discriminate.
Defined.

(** C4, counterexample: a session at number 0 gets [WRONG_NUMBER] with number
    0x42 and then [ERROR]; [_send] raises and [msg_number] is 0x42. *)
Lemma send_raise_after_resync :
  let self := init 5 [[Some wrong_number_0x42; Some error_identify]] in
  let run := _send MessageSubject.IDENTIFY [] default_counter true
               default_attempts self in
  fst run = Raise (BootloaderException (Failure MessageType.ERROR))
  /\ msg_number self = 0
  /\ msg_number (snd run) = 0x42
  /\ msg_number (snd run) <> msg_number self.
Proof. repeat split. discriminate. Qed.

(** The first answer with the subject of the request and type [SUCCESS]
    ends the request, whatever number it carries, unless this attempt was
    the last one allowed. *)
Lemma send_accepts_success subj payload counter attempts self r obs q :
  msg_queue self = (Some r :: obs) :: q ->
  subject r = subj ->
  type r = MessageType.SUCCESS ->
  exhausted attempts 1 = false ->
  _send subj payload counter true attempts self
  = (Return (Some r),
     set_msg_number
       (transmit (request self subj payload counter) (set_msg_queue self q))
       ((msg_number self + 1) mod 256)).
Proof.
  intros Hq Hs Ht Hex. unfold _send. simpl negb. cbv iota.
  rewrite Hq. cbn [next_observations wait_response subject].
  rewrite Hs, Z.eqb_refl, Ht. simpl (_ =? _). simpl (0 + 1).
  rewrite Hex. now rewrite land_0xff.
Qed.

(** A request returns only a [SUCCESS] answer with its own subject. *)
Lemma send_returns_success subj payload counter attempts self r self' :
  _send subj payload counter true attempts self = (Return (Some r), self') ->
  In (Some r) (observations self)
  /\ subject r = subj
  /\ type r = MessageType.SUCCESS.
Proof.
  intros H. apply send_response_inv in H.
  destruct H as (o1 & self1 & Hw & [(r1 & -> & Hr & _)|(Hno & _)]).
  - injection Hr as ->. apply wait_response_return in Hw. exact Hw.
  - now elim (Hno (Some r)).
Qed.

(** C10, at the failing input: with the default two attempts, the first wait
    times out and the second one receives the [SUCCESS] answer to the
    request; [_send] raises "No response after 2 attempts" and [msg_number]
    stays at 0. *)
Theorem send_success_on_last_attempt :
  let self := init 5 [[None; Some success_identify]] in
  let run := _send MessageSubject.IDENTIFY [] default_counter true
               default_attempts self in
  fst run = Raise (BootloaderException (NoResponse 2))
  /\ msg_number (snd run) = 0
  /\ interface (snd run) = [encode identify_request; encode identify_request].
Proof. repeat split. Qed.

(** ** Block framing *)

Lemma bind_ext {A B : Type} (m : M A) (k1 k2 : A -> M B) self :
  (forall a s, k1 a s = k2 a s) -> bind m k1 self = bind m k2 self.
Proof.
  intros H. unfold bind. destruct (m self) as [[a| | |] s]; auto.
Qed.

Lemma bind_assoc {A B C : Type} (m : M A) (f : A -> M B) (k : B -> M C) self :
  bind (bind m f) k self = bind m (fun a => bind (f a) k) self.
Proof.
  unfold bind. destruct (m self) as [[a| | |] s]; reflexivity.
Qed.

Lemma send_prefix_ext fs (rest1 rest2 : M (option Message)) self :
  (forall s, rest1 s = rest2 s) ->
  send_prefix fs rest1 self = send_prefix fs rest2 self.
Proof.
  intros H. revert self. induction fs as [|f fs IH]; intros self; simpl.
  - apply H.
  - apply bind_ext. intros _ s. apply IH.
Qed.

Lemma send_frames_seq_last fs last answer self :
  send_frames_seq answer (fs ++ [last]) self
  = send_prefix fs (send_frame last) self.
Proof.
  revert answer self. induction fs as [|f fs IH]; intros answer self; simpl.
  - unfold bind, ret. destruct (send_frame last self) as [[a| | |] s];
      reflexivity.
  - apply bind_ext. intros r s. apply IH.
Qed.

Lemma py_eq_int (a b : Z) : py_eq (PInt a) (PInt b) = (a =? b).
Proof.
  unfold py_eq, Qeq_bool. simpl. rewrite !Z.mul_1_r. reflexivity.
Qed.

Section Block.
Variables (B O : Z) (data : list Z).

(** The loop over the middle frames sends the frames [start .. start+n-1]
    of the block. *)
Lemma middle_frames_spec (n start : nat) (i : Z) (k : Z -> M (option Message))
  self :
  (1 <= start)%nat ->
  Z.of_nat n + Z.of_nat start = B - 1 ->
  i + 1 = O + Z.of_nat start ->
  bind (middle_frames n i data) k self
  = send_prefix (map (block_frame_at B O data) (seq start n))
      (k (i + Z.of_nat n)) self.
Proof.
  revert start i self. induction n as [|n IH]; intros start i self Hs Hn Hi.
  - simpl. now rewrite Z.add_0_r.
  - cbn [middle_frames seq map send_prefix].
    assert (Hf : block_frame_at B O data start
                 = Build_block_frame (Z.of_nat (S n))
                     (py_slice data ((i + 1) * 4) ((i + 1) * 4 + 4)) false).
    { unfold block_frame_at.
      destruct (Z.eqb_spec (Z.of_nat start) 0); [lia|].
      destruct (Z.eqb_spec (Z.of_nat start) (B - 1)); [lia|].
      rewrite Hi. f_equal. lia. }
    rewrite Hf. unfold send_frame. cbn [frame_payload frame_counter frame_response].
    change (bind
              (payload <- unit_slice data (PInt (i + 1)) ;;
               _send MessageSubject.DATA payload (Z.of_nat (S n)) false
                 default_attempts ;;
               middle_frames n (i + 1) data) k self)
      with (bind
              (_send MessageSubject.DATA
                 (py_slice data ((i + 1) * 4) ((i + 1) * 4 + 4))
                 (Z.of_nat (S n)) false default_attempts ;;
               middle_frames n (i + 1) data) k self).
    rewrite bind_assoc. apply bind_ext. intros _ s.
    rewrite (IH (S start) (i + 1) s) by lia.
    apply send_prefix_ext. intros s0. f_equal. lia.
Qed.
End Block.

Lemma map_all_false {A : Type} (f : A -> bool) (l : list A) :
  (forall x, In x l -> f x = false) -> map f l = repeat false (length l).
Proof.
  induction l as [|x l IH]; intros H; simpl; [reflexivity|].
  rewrite H by now left. f_equal. apply IH. intros y Hy. apply H. now right.
Qed.

Section BlockFraming.
Variables (B O : Z) (data : list Z).
Hypothesis HB : 1 < B.

Lemma block_frames_split :
  block_frames B O data
  = (block_frame_at B O data 0
       :: map (block_frame_at B O data) (seq 1 (Z.to_nat (B - 2))))
      ++ [block_frame_at B O data (S (Z.to_nat (B - 2)))].
Proof.
  unfold block_frames.
  replace (Z.to_nat B) with (S (S (Z.to_nat (B - 2)))) by lia.
  rewrite seq_S, map_app. reflexivity.
Qed.

Lemma send_block_frames (self : Bootloader) :
  send_block (PInt B) (PInt O) data self
  = send_frames_seq None (block_frames B O data) self.
Proof.
  unfold send_block. rewrite py_eq_int.
  destruct (Z.eqb_spec B 1); [lia|].
  change (bind
            (_send MessageSubject.DATA (py_slice data (O * 4) (O * 4 + 4))
               (Z.lor START_OF_MESSAGE_MASK (B - 1)) false default_attempts)
            (fun _ =>
               bind (middle_frames (Z.to_nat (B - 2)) O data)
                 (fun i =>
                    _send MessageSubject.DATA
                      (py_slice data ((i + 1) * 4) ((i + 1) * 4 + 4)) 0 true
                      default_attempts)) self
          = send_frames_seq None (block_frames B O data) self).
  rewrite block_frames_split, send_frames_seq_last. cbn [send_prefix].
  assert (Hfirst : block_frame_at B O data 0
                   = Build_block_frame (Z.lor START_OF_MESSAGE_MASK (B - 1))
                       (py_slice data (O * 4) (O * 4 + 4)) false).
  { unfold block_frame_at. cbn [Z.of_nat]. rewrite Z.add_0_r.
    destruct (Z.eqb_spec 0 (B - 1)); [lia|reflexivity]. }
  assert (Hlast : block_frame_at B O data (S (Z.to_nat (B - 2)))
                  = Build_block_frame 0
                      (py_slice data ((O + Z.of_nat (Z.to_nat (B - 2)) + 1) * 4)
                         ((O + Z.of_nat (Z.to_nat (B - 2)) + 1) * 4 + 4))
                      true).
  { unfold block_frame_at.
    destruct (Z.eqb_spec (Z.of_nat (S (Z.to_nat (B - 2)))) 0); [lia|].
    destruct (Z.eqb_spec (Z.of_nat (S (Z.to_nat (B - 2)))) (B - 1)); [|lia].
    f_equal; try lia; f_equal; lia. }
  rewrite Hfirst, Hlast. unfold send_frame at 1.
  cbn [frame_payload frame_counter frame_response].
  apply bind_ext. intros _ s.
  rewrite (@middle_frames_spec B O data (Z.to_nat (B - 2)) 1 O) by lia.
  apply send_prefix_ext. intros s0. reflexivity.
Qed.

(** The counters of the block: [0x80 | (B-1)], then [B-2], ..., [1], [0]. *)
Lemma block_counters :
  map frame_counter (block_frames B O data)
  = Z.lor 0x80 (B - 1)
      :: map (fun j => B - 1 - Z.of_nat j) (seq 1 (Z.to_nat (B - 1))).
Proof.
  unfold block_frames.
  replace (Z.to_nat B) with (S (Z.to_nat (B - 1))) by lia.
  cbn [seq map]. f_equal. rewrite map_map. apply map_ext_in.
  intros j Hj. apply in_seq in Hj. unfold block_frame_at.
  cbn [frame_counter]. destruct (Z.eqb_spec (Z.of_nat j) 0); [lia|reflexivity].
Qed.

(** Only the last frame awaits a response. *)
Lemma block_responses :
  map frame_response (block_frames B O data)
  = repeat false (Z.to_nat (B - 1)) ++ [true].
Proof.
  unfold block_frames.
  replace (Z.to_nat B) with (S (Z.to_nat (B - 1))) by lia.
  rewrite seq_S, !map_app. cbn [map]. f_equal.
  - rewrite map_map.
    rewrite <- (length_seq (Z.to_nat (B - 1)) 0) at 2.
    apply map_all_false.
    intros j Hj. apply in_seq in Hj. unfold block_frame_at.
    cbn [frame_response].
    destruct (Z.eqb_spec (Z.of_nat j) (B - 1)); [lia|reflexivity].
  - unfold block_frame_at. cbn [frame_response]. f_equal.
    apply Z.eqb_eq. lia.
Qed.
End BlockFraming.

Lemma block_payloads_concat (B O : Z) (data : list Z) (n s : nat) :
  0 <= O ->
  (O + Z.of_nat s + Z.of_nat n) * 4 <= Z.of_nat (length data) ->
  concat (map (fun j => frame_payload (block_frame_at B O data j)) (seq s n))
  = py_slice data ((O + Z.of_nat s) * 4) ((O + Z.of_nat s + Z.of_nat n) * 4).
Proof.
  intros HO. revert s. induction n as [|n IH]; intros s Hlen.
  - simpl. rewrite Z.add_0_r, py_slice_nonneg by lia.
    now rewrite Z.sub_diag.
  - cbn [seq map concat]. rewrite IH by lia.
    unfold block_frame_at at 1. cbn [frame_payload].
    replace ((O + Z.of_nat (S s)) * 4) with ((O + Z.of_nat s) * 4 + 4) by lia.
    rewrite py_slice_app by lia. f_equal. lia.
Qed.

Lemma frames_view (m : Message) (frames : list can.Message) :
  Forall (fun w => exists n, w = encode (set_number m n)) frames ->
  map frame_view frames = repeat (frame_view (encode m)) (length frames).
Proof.
  induction 1 as [|w ws [n ->] _ IH]; [reflexivity|].
  cbn [map length repeat]. rewrite IH. f_equal.
Qed.

Lemma send_frame_wire (f : block_frame) (self : Bootloader) o self' :
  send_frame f self = (o, self') ->
  exists k,
    interface self'
    = interface self
        ++ skipn (length (interface self)) (interface self')
    /\ map frame_view (skipn (length (interface self)) (interface self'))
       = block_frame_view f :: repeat (block_frame_view f) k
    /\ (frame_response f = false -> k = 0%nat /\ o = Return None).
Proof.
  intros H. unfold send_frame in H.
  pose proof (send_frames _ _ _ _ _ _ H) as (_ & frames & Hi & Hf).
  exists (length frames). rewrite Hi.
  rewrite skipn_app, skipn_all, Nat.sub_diag. cbn [app skipn].
  repeat split.
  - cbn [map]. f_equal. now rewrite (frames_view Hf).
  - destruct (frame_response f); [discriminate|].
    rewrite send_no_response in H. inversion H; subst.
    cbn [interface set_msg_number transmit] in Hi.
    apply app_inv_head in Hi. injection Hi as <-. reflexivity.
  - destruct (frame_response f); [discriminate|].
    rewrite send_no_response in H. now inversion H.
Qed.

(** The frames without response go out one each; then comes [rest]. *)
Lemma send_prefix_wire (fs : list block_frame) (rest : M (option Message))
  (self : Bootloader) o self' :
  (forall f, In f fs -> frame_response f = false) ->
  send_prefix fs rest self = (o, self') ->
  exists s1 frames,
    rest s1 = (o, self')
    /\ interface s1 = interface self ++ frames
    /\ map frame_view frames = map block_frame_view fs.
Proof.
  revert self. induction fs as [|f fs IH]; intros self Hno H.
  - exists self, []. rewrite app_nil_r. repeat split. exact H.
  - cbn [send_prefix] in H. unfold bind in H.
    destruct (send_frame f self) as [o1 s0] eqn:Hf.
    destruct (send_frame_wire _ _ Hf) as (k & Hi & Hv & Hk).
    destruct (Hk (Hno f (or_introl eq_refl))) as [-> ->].
    apply IH in H; [|intros f0 Hf0; apply Hno; now right].
    destruct H as (s1 & frames & Hrest & Hi1 & Hv1).
    exists s1, (skipn (length (interface self)) (interface s0) ++ frames).
    repeat split.
    + exact Hrest.
    + rewrite Hi1, Hi at 1. now rewrite <- app_assoc.
    + rewrite map_app, Hv, Hv1. reflexivity.
Qed.

(** The same as an equation, with the state the frames leave behind. *)
Lemma send_prefix_run (fs : list block_frame) (rest : M (option Message))
  (self : Bootloader) :
  (forall f, In f fs -> frame_response f = false) ->
  exists s1 frames,
    send_prefix fs rest self = rest s1
    /\ board s1 = board self
    /\ msg_queue s1 = msg_queue self
    /\ interface s1 = interface self ++ frames
    /\ map frame_view frames = map block_frame_view fs.
Proof.
  revert self. induction fs as [|f fs IH]; intros self Hno.
  - exists self, []. rewrite app_nil_r. repeat split.
  - cbn [send_prefix]. unfold bind, send_frame.
    rewrite (Hno f (or_introl eq_refl)), send_no_response.
    destruct (IH (set_msg_number
                    (transmit (request self MessageSubject.DATA
                                 (frame_payload f) (frame_counter f)) self)
                    ((msg_number self + 1) mod 256)))
      as (s1 & frames & Hrun & Hb & Hq & Hi & Hv).
    { intros f0 Hf0. apply Hno. now right. }
    exists s1, (encode (request self MessageSubject.DATA (frame_payload f)
                          (frame_counter f)) :: frames).
    repeat split; try assumption.
    + rewrite Hi. cbn [interface set_msg_number transmit].
      now rewrite <- app_assoc.
    + cbn [map]. now rewrite Hv.
Qed.

(** On the wire a block is its [B] frames in order, followed by nothing but
    retransmissions of the last one. *)
Lemma block_on_wire (B O : Z) (data : list Z) (self : Bootloader) o self' :
  1 < B ->
  send_block (PInt B) (PInt O) data self = (o, self') ->
  exists frames k,
    interface self' = interface self ++ frames
    /\ map frame_view frames
       = map block_frame_view (block_frames B O data)
           ++ repeat (block_frame_view
                        (block_frame_at B O data (S (Z.to_nat (B - 2))))) k.
Proof.
  intros HB H. rewrite send_block_frames in H by exact HB.
  rewrite block_frames_split in * by exact HB.
  rewrite send_frames_seq_last in H.
  apply send_prefix_wire in H.
  - destruct H as (s1 & frames & Hlast & Hi & Hv).
    destruct (send_frame_wire _ _ Hlast) as (k & Hi' & Hv' & _).
    exists (frames ++ skipn (length (interface s1)) (interface self')), k.
    split.
    + rewrite Hi', Hi at 1. now rewrite <- app_assoc.
    + rewrite !map_app, Hv, Hv'. cbn [map]. rewrite <- app_assoc.
      reflexivity.
  - intros f [<-|Hf].
    + unfold block_frame_at. cbn [frame_response Z.of_nat].
      apply Z.eqb_neq. lia.
    + apply in_map_iff in Hf. destruct Hf as (j & <- & Hj).
      apply in_seq in Hj. unfold block_frame_at. cbn [frame_response].
      apply Z.eqb_neq. lia.
Qed.

(** C1: a block of [B > 1] units at unit offset [O] is sent as exactly the
    [B] [DATA] requests of [block_frames], in order: their counters are
    [0x80 | (B-1)], [B-2], ..., [1], [0]; only the last awaits a response;
    the i-th carries the four bytes [data[(O+i)*4 : (O+i)*4+4]], and
    together the payloads are the bytes [O*4 .. (O+B)*4] of the page.  On the
    wire these are [B] frames, followed by nothing but retransmissions of the
    last one while its answer is awaited. *)
Theorem block_framing (B O : Z) (data : list Z) (self : Bootloader) :
  1 < B ->
  0 <= O ->
  (O + B) * 4 <= Z.of_nat (length data) ->
  send_block (PInt B) (PInt O) data self
  = send_frames_seq None (block_frames B O data) self
  /\ length (block_frames B O data) = Z.to_nat B
  /\ map frame_counter (block_frames B O data)
     = Z.lor 0x80 (B - 1)
         :: map (fun j => B - 1 - Z.of_nat j) (seq 1 (Z.to_nat (B - 1)))
  /\ map frame_response (block_frames B O data)
     = repeat false (Z.to_nat (B - 1)) ++ [true]
  /\ (forall i, (i < Z.to_nat B)%nat ->
        nth_error (map frame_payload (block_frames B O data)) i
        = Some (py_slice data ((O + Z.of_nat i) * 4)
                  ((O + Z.of_nat i) * 4 + 4))
        /\ length (py_slice data ((O + Z.of_nat i) * 4)
                     ((O + Z.of_nat i) * 4 + 4)) = 4%nat)
  /\ concat (map frame_payload (block_frames B O data))
     = py_slice data (O * 4) ((O + B) * 4)
  /\ (exists frames k,
        interface (snd (send_block (PInt B) (PInt O) data self))
        = interface self ++ frames
        /\ map frame_view frames
           = map block_frame_view (block_frames B O data)
               ++ repeat (MessageSubject.DATA, 0,
                          py_slice data ((O + B - 1) * 4)
                            ((O + B - 1) * 4 + 4)) k).
Proof.
  intros HB HO Hlen. repeat split.
  - apply send_block_frames. exact HB.
  - unfold block_frames. now rewrite length_map, length_seq.
  - apply block_counters. exact HB.
  - apply block_responses. exact HB.
  - unfold block_frames. rewrite map_map.
    rewrite nth_error_map, nth_error_seq.
    destruct (Nat.ltb_spec i (Z.to_nat B)); [|lia]. reflexivity.
  - apply Nat2Z.inj. rewrite py_slice_length by lia. lia.
  - unfold block_frames. rewrite map_map.
    rewrite (@block_payloads_concat B O data (Z.to_nat B) 0) by lia.
    f_equal; lia.
  - destruct (send_block (PInt B) (PInt O) data self) as [o self'] eqn:H.
    destruct (block_on_wire _ _ _ HB H) as (frames & k & Hi & Hv).
    exists frames, k. split; [exact Hi|]. rewrite Hv. do 2 f_equal.
    unfold block_frame_view, block_frame_at.
    cbn [frame_counter frame_payload].
    destruct (Z.eqb_spec (Z.of_nat (S (Z.to_nat (B - 2)))) 0); [lia|].
    f_equal; [f_equal; lia|]. f_equal; lia.
Qed.

Lemma block_framing_witness :
  send_block (PInt 2) (PInt 0) eight_bytes (init 5 [])
  = send_frames_seq None (block_frames 2 0 eight_bytes) (init 5 []).
Proof.
  apply (@block_framing 2 0 eight_bytes (init 5 [])).
  - lia.
  - lia.
  - simpl. lia.
Defined.

(** ** The page programmer under true division *)

(** A block whose size is a [float] other than 1.0 is not sent at all: the
    counter of its first frame cannot be computed. *)
Lemma send_block_float (q : Q) (offset : pynum) (data : list Z)
  (self : Bootloader) :
  py_eq (PFloat q) (PInt 1) = false ->
  send_block (PFloat q) offset data self = (Raise TypeError, self).
Proof. intros H. unfold send_block. rewrite H. reflexivity. Qed.

(** C5, at the failing input: page size 256, the answer to the first block
    of 64 frames never comes.  The block size becomes the float 32.0, the
    address is set again, and the next block raises [TypeError] before any
    of its frames is sent: 65 [DATA] frames in all (the 64 of the first
    block and one retransmission of its last frame). *)
Theorem backoff_breaks_block (fuel : nat) :
  let self :=
    session 256 [[success MessageSubject.SET_ADDRESS []]; [None; None];
                 [success MessageSubject.SET_ADDRESS []]] in
  let run := program_page (S (S fuel)) 0 [] false self in
  py_truediv (PInt 64) 2 = PFloat 32
  /\ fst run = Raise TypeError
  /\ length (filter is_data (interface (snd run))) = 65%nat
  /\ map frame_subject (skipn 66 (interface (snd run)))
     = [MessageSubject.SET_ADDRESS].
Proof. vm_compute. repeat split. Qed.

(** C6, at the failing inputs: with a page size of 32, 64 or 128 bytes the
    first block is clamped to the float [pagesize / 4]; [program_page]
    raises [TypeError] and sends no [DATA] frame, whatever the data. *)
Theorem small_page_not_sent (fuel : nat) (page : Z) (data : list ascii)
  (self : Bootloader) :
  In (ProgrammeableBoard.pagesize (board self)) [32; 64; 128] ->
  program_page (S fuel) page data true self = (Raise TypeError, self).
Proof.
  intros Hp. unfold program_page.
  destruct Hp as [Hp|[Hp|[Hp|[]]]]; rewrite <- Hp; reflexivity.
Qed.

Lemma small_page_not_sent_witness :
  program_page 1 0 ["A"; "B"]%char true (session 128 [])
  = (Raise TypeError, session 128 []).
Proof.
  apply (@small_page_not_sent 0 0 ["A"; "B"]%char (session 128 [])).
  simpl. right. right. left. reflexivity.
Defined.

(** With the address still to be set, the [SET_ADDRESS] request goes out and
    is answered, and then the same happens. *)
Example short_page_128 :
  let self := session 128 [[success MessageSubject.SET_ADDRESS []]] in
  let run := program_page 8 0 ["A"; "B"]%char false self in
  fst run = Raise TypeError
  /\ filter is_data (interface (snd run)) = [].
Proof. vm_compute. repeat split. Qed.

(** With a page size of 256 the block size stays the integer 64 and the
    short page goes out padded: 64 [DATA] frames, the data followed by
    [0xff] bytes. *)
Example short_page_256 :
  let self := session 256 [[success MessageSubject.SET_ADDRESS []];
                           [success MessageSubject.DATA [0; 0]]] in
  let run := program_page 8 0 ["A"; "B"]%char false self in
  fst run = Return tt
  /\ length (filter is_data (interface (snd run))) = 64%nat
  /\ concat (map (fun f => skipn 4 (can.data f))
               (filter is_data (interface (snd run))))
     = [65; 66] ++ repeat 0xff 254
  /\ map (fun f => nth 3 (can.data f) 0) (filter is_data (interface (snd run)))
     = 0xBF :: map Z.of_nat (rev (seq 0 63)).
Proof. vm_compute. repeat split. Qed.

(** The padded page has the page size. *)
Lemma amend_length (pagesize : Z) (l : list Z) :
  Z.of_nat (length l) <= pagesize ->
  Z.of_nat (length (amend pagesize l)) = pagesize.
Proof.
  intros H. unfold amend. destruct (Z.ltb_spec (Z.of_nat (length l)) pagesize).
  - rewrite length_app, repeat_length. lia.
  - lia.
Qed.

(** The loop ends when nothing remains. *)
Lemma page_loop_done fuel page padded remaining blocksize offset address
  answer self :
  py_gt remaining (PInt 0) = false ->
  page_loop fuel page padded remaining blocksize offset address answer self
  = (Return answer, self).
Proof. intros H. destruct fuel; simpl; now rewrite H. Qed.

(** The padding law where the arithmetic stays integral: with a page size of
    256 and the answer to the block coming at once, a page of at most 256
    bytes goes out as the 64 [DATA] frames of one block, and their payloads
    are the data followed by [0xff] up to 256 bytes. *)
Lemma full_page_written (fuel : nat) (page : Z) (text : list ascii)
  (self : Bootloader) (r : Message) obs q a0 a1 echo :
  ProgrammeableBoard.pagesize (board self) = 256 ->
  (length text <= 256)%nat ->
  msg_queue self = (Some r :: obs) :: q ->
  subject r = MessageSubject.DATA ->
  type r = MessageType.SUCCESS ->
  data r = a0 :: a1 :: echo ->
  Z.lor (Z.shiftl a0 8) a1 = page ->
  exists self' frames,
    program_page (S fuel) page text true self = (Return tt, self')
    /\ interface self' = interface self ++ frames
    /\ map frame_view frames
       = map block_frame_view (block_frames 64 0 (amend 256 (map ord text)))
    /\ concat (map (fun f => skipn 4 (can.data f)) frames)
       = map ord text ++ repeat 0xff (256 - length text).
Proof.
  intros Hps Hlen Hq Hs Ht Hd Hecho.
  unfold program_page. rewrite Hps.
  set (padded := amend 256 (map ord text)).
  assert (Hpad : Z.of_nat (length padded) = 256).
  { apply amend_length. rewrite length_map. lia. }
  (* the block *)
  assert (Hblock : exists s2 frames,
             send_block (PInt 64) (PInt 0) padded self = (Return (Some r), s2)
             /\ interface s2 = interface self ++ frames
             /\ map frame_view frames
                = map block_frame_view (block_frames 64 0 padded)).
  { rewrite send_block_frames by lia.
    rewrite block_frames_split by lia. rewrite send_frames_seq_last.
    set (fs := block_frame_at 64 0 padded 0
               :: map (block_frame_at 64 0 padded) (seq 1 (Z.to_nat (64 - 2)))).
    set (last := block_frame_at 64 0 padded (S (Z.to_nat (64 - 2)))).
    destruct (@send_prefix_run fs (send_frame last) self)
      as (s1 & frames & Hrun & Hb & Hq1 & Hi & Hv).
    { intros f Hf. apply in_map_iff with (f := block_frame_at 64 0 padded)
                     (l := seq 0 (S (Z.to_nat (64 - 2)))) in Hf.
      destruct Hf as (j & <- & Hj). apply in_seq in Hj.
      unfold block_frame_at. cbn [frame_response]. apply Z.eqb_neq. lia. }
    rewrite Hrun. unfold send_frame.
    change (frame_response last) with true.
    rewrite (@send_accepts_success MessageSubject.DATA (frame_payload last)
               (frame_counter last) default_attempts s1 r obs q)
      by (try assumption; try reflexivity; congruence).
    eexists. exists (frames ++ [encode (request s1 MessageSubject.DATA
                                   (frame_payload last) (frame_counter last))]).
    split; [reflexivity|]. split.
    - cbn [interface set_msg_number transmit set_msg_queue]. rewrite Hi.
      now rewrite <- app_assoc.
    - rewrite !map_app, Hv. reflexivity. }
  destruct Hblock as (s2 & frames & Hblock & Hi & Hv).
  exists s2, frames.
  split; [|split; [exact Hi|split; [exact Hv|]]].
  - change (py_truediv (PInt 256) 4) with (PFloat 64).
    unfold bind at 1. cbn [page_loop].
    change (py_gt (PFloat 64) (PInt 0)) with true. cbn [negb].
    change (set_address page (PInt 0) true self) with (Return tt, self).
    cbv iota beta.
    change (py_lt (PFloat 64) (PInt 64)) with false. cbv iota.
    rewrite Hblock. rewrite page_loop_done by reflexivity.
    unfold check_answer, bind, py_index. rewrite Hd. cbn [nth_error ret].
    rewrite Hecho, Z.eqb_refl. reflexivity.
  - transitivity (concat (map (fun v => snd v) (map frame_view frames))).
    { rewrite map_map. reflexivity. }
    rewrite Hv, map_map.
    change (fun x => snd (block_frame_view x)) with frame_payload.
    unfold block_frames. rewrite map_map.
    rewrite (@block_payloads_concat 64 0 padded (Z.to_nat 64) 0) by lia.
    change ((0 + Z.of_nat 0) * 4) with 0.
    change ((0 + Z.of_nat 0 + Z.of_nat (Z.to_nat 64)) * 4) with 256.
    rewrite py_slice_nonneg by lia. cbn [Z.to_nat skipn].
    rewrite firstn_all2 by lia.
    unfold padded, amend. rewrite length_map.
    destruct (Z.ltb_spec (Z.of_nat (length text)) 256).
    + do 2 f_equal. lia.
    + replace (256 - length text)%nat with 0%nat by lia.
      now rewrite app_nil_r.
Qed.

(** ** The driver *)

Lemma fold_left_add (xs : list Z) (x : Z) :
  fold_left Z.add xs x = x + fold_right Z.add 0 xs.
Proof.
  revert x. induction xs as [|y xs IH]; intros x; simpl.
  - lia.
  - rewrite IH. lia.
Qed.

Lemma total_size_sum (segments : list (list ascii)) (self : Bootloader) :
  segments <> [] ->
  total_size segments self = (Return (image_size segments), self).
Proof.
  intros Hne. unfold total_size, image_size.
  destruct segments as [|x xs]; [contradiction|].
  simpl. unfold ret. now rewrite fold_left_add.
Qed.

(** The loop of [identify] transmits [IDENTIFY] requests only and leaves the
    board as it is. *)
Lemma identify_loop_frames (fuel : nat) (self : Bootloader) o self' :
  identify_loop fuel self = (o, self') ->
  board self' = board self
  /\ exists frames,
      interface self' = interface self ++ frames
      /\ Forall (fun f => exists n,
                   f = identify_frame (ProgrammeableBoard.id (board self)) n)
           frames.
Proof.
  revert self. induction fuel as [|fuel IH]; intros self; simpl.
  - intros H. inversion H; subst. split; [reflexivity|].
    exists []. rewrite app_nil_r. split; [reflexivity|constructor].
  - unfold _start_bootloader_command.
    change (bind (ret tt)
              (fun _ => _send MessageSubject.IDENTIFY [] default_counter true 10)
              self)
      with (_send MessageSubject.IDENTIFY [] default_counter true 10 self).
    destruct (_send MessageSubject.IDENTIFY [] default_counter true 10 self)
      as [o1 self1] eqn:Hsend.
    apply send_frames in Hsend. destruct Hsend as (Hb & frames & Hi & Hf).
    assert (Hall : Forall (fun f => exists n,
                     f = identify_frame (ProgrammeableBoard.id (board self)) n)
                     (encode (request self MessageSubject.IDENTIFY []
                                default_counter) :: frames)).
    { constructor.
      - exists (msg_number self). reflexivity.
      - eapply Forall_impl; [|exact Hf]. intros f [n ->]. exists n.
        reflexivity. }
    assert (Hdone : (o1, self1) = (o, self') ->
              board self' = board self
              /\ exists frames0,
                  interface self' = interface self ++ frames0
                  /\ Forall (fun f => exists n,
                       f = identify_frame (ProgrammeableBoard.id (board self)) n)
                       frames0).
    { intros H. inversion H; subst. split; [assumption|].
      eexists. split; [exact Hi|exact Hall]. }
    destruct o1 as [r|e| |]; try exact Hdone.
    destruct e; try exact Hdone.
    intros H. apply IH in H. destruct H as (Hb' & frames' & Hi' & Hf').
    split; [congruence|].
    exists ((encode (request self MessageSubject.IDENTIFY [] default_counter)
               :: frames) ++ frames').
    split.
    + rewrite Hi', Hi. now rewrite <- app_assoc.
    + apply Forall_app. split; [exact Hall|].
      rewrite Hb in Hf'. exact Hf'.
Qed.

(** Filling in the board sends nothing; when it succeeds the page size is
    one of the table. *)
Lemma fill_board_spec (response : option Message) (self self' : Bootloader) o :
  fill_board response self = (o, self') ->
  interface self' = interface self
  /\ ProgrammeableBoard.id (board self') = ProgrammeableBoard.id (board self)
  /\ (o = Return tt ->
      In (ProgrammeableBoard.pagesize (board self')) [32; 64; 128; 256]).
Proof.
  unfold fill_board. destruct response as [response|].
  2: { intros H. inversion H; subst. repeat split. discriminate. }
  destruct (data response) as [|d0 [|d1 [|d2 [|d3 rest]]]];
    cbv [py_index nth_error bind ret raise update_board set_board
         pagesize_table];
    try destruct (d1 =? 0); try destruct (d1 =? 1); try destruct (d1 =? 2);
    try destruct (d1 =? 3);
    intros H; inversion H; subst; cbn; repeat split; try discriminate;
    intros _; tauto.
Qed.

Lemma identify_spec (fuel : nat) (self self1 : Bootloader) :
  identify fuel self = (Return tt, self1) ->
  In (ProgrammeableBoard.pagesize (board self1)) [32; 64; 128; 256]
  /\ exists frames,
      interface self1 = interface self ++ frames
      /\ Forall (fun f => exists n,
                   f = identify_frame (ProgrammeableBoard.id (board self)) n)
           frames.
Proof.
  unfold identify, bind.
  destruct (identify_loop fuel self) as [[response|e| |] s1] eqn:Hloop;
    try discriminate.
  intros Hfill. apply identify_loop_frames in Hloop.
  destruct Hloop as (_ & frames & Hi & Hf).
  apply fill_board_spec in Hfill. destruct Hfill as (Hi' & _ & Hp).
  split; [now apply Hp|].
  exists frames. split; [congruence|exact Hf].
Qed.

Lemma identify_frame_no_write (board_id n : Z) :
  is_page_write (identify_frame board_id n) = false.
Proof. reflexivity. Qed.

(** C9: once the board is identified, with [total] the sum of the segment
    lengths and [pages = ceil(total / pagesize)]: whenever [pages] exceeds
    the page count of the board, [program] raises "Programsize exceeds
    available Flash!", and the frames it has transmitted by then are
    [IDENTIFY] requests only, no [SET_ADDRESS] and no [DATA] frame. *)
Theorem image_too_large (fuel : nat) (segments : list (list ascii))
  (self self1 : Bootloader) :
  identify fuel self = (Return tt, self1) ->
  segments <> [] ->
  ProgrammeableBoard.pages (board self1)
  < Qceiling (inject_Z (image_size segments)
              / inject_Z (ProgrammeableBoard.pagesize (board self1))) ->
  program fuel segments self = (Raise (BootloaderException TooLarge), self1)
  /\ exists frames,
      interface self1 = interface self ++ frames
      /\ Forall (fun f => exists n,
                   f = identify_frame (ProgrammeableBoard.id (board self)) n)
           frames
      /\ Forall (fun f => is_page_write f = false) frames.
Proof.
  intros Hid Hne Hpages.
  destruct (identify_spec _ _ Hid) as (Hsize & frames & Hi & Hf).
  split.
  - unfold program. unfold bind at 1. rewrite Hid.
    unfold bind at 1. rewrite total_size_sum by assumption.
    unfold page_count.
    destruct (Z.eqb_spec (ProgrammeableBoard.pagesize (board self1)) 0)
      as [Hz|_].
    { rewrite Hz in Hsize. simpl in Hsize.
      destruct Hsize as [H|[H|[H|[H|[]]]]]; discriminate. }
    unfold bind, ret.
    destruct (Z.gtb_spec
                (Qceiling (inject_Z (image_size segments)
                           / inject_Z (ProgrammeableBoard.pagesize
                                         (board self1))))
                (ProgrammeableBoard.pages (board self1))); [reflexivity|lia].
  - exists frames. repeat split; try assumption.
    eapply Forall_impl; [|exact Hf]. intros f [n ->].
    apply identify_frame_no_write.
Qed.

Lemma image_too_large_witness :
  fst (program 1 large_image small_board)
  = Raise (BootloaderException TooLarge).
Proof.
  assert (Hne : large_image <> []) by discriminate.
  assert (Hpages :
    ProgrammeableBoard.pages (board (snd (identify 1 small_board)))
    < Qceiling (inject_Z (image_size large_image)
                / inject_Z (ProgrammeableBoard.pagesize
                              (board (snd (identify 1 small_board))))))
    by (vm_compute; reflexivity).
  destruct (@image_too_large 1 large_image small_board
              (snd (identify 1 small_board)) eq_refl Hne Hpages) as [H _].
  rewrite H. reflexivity.
Defined.

(** * Further properties of the code *)

(** ** The codec and the dispatcher *)

Lemma header_repack (d : Z) :
  Z.lor (Z.shiftl (Z.shiftr d 6) 6) (Z.land d 0x3f) = d.
Proof.
  change 0x3f with (Z.ones 6).
  rewrite <- Z.ldiff_ones_r by lia. apply Z.lor_ldiff_and.
Qed.

Lemma header_fields (d : Z) :
  0 <= d <= 255 -> 0 <= Z.shiftr d 6 <= 3 /\ 0 <= Z.land d 0x3f <= 63.
Proof.
  intros Hd. rewrite Z.shiftr_div_pow2 by lia.
  change (Z.land d 0x3f) with (Z.land d (Z.ones 6)).
  rewrite Z.land_ones by lia.
  change (2 ^ 6) with 64. split.
  - pose proof (Z.div_pos d 64).
    assert (d / 64 < 4) by (apply Z.div_lt_upper_bound; lia). lia.
  - pose proof (Z.mod_pos_bound d 64). lia.
Qed.

Lemma decode_encode_eq (m : Message) :
  0 <= subject m < 64 -> decode (encode m) = Return m.
Proof.
  intros Hs. destruct m as [b t s n c d]. cbn [subject] in Hs.
  unfold decode, encode.
  cbn [can.data can.extended can.rtr board_id type subject number
       data_counter data app].
  rewrite header_type, header_subject by assumption.
  rewrite !orb_false_r.
  replace (Z.of_nat (length (b :: Z.lor (Z.shiftl t 6) s :: n :: c :: d)) <? 4)
    with false by (symmetry; apply Z.ltb_ge; simpl length; lia).
  change (b :: Z.lor (Z.shiftl t 6) s :: n :: c :: d)
    with ([b; Z.lor (Z.shiftl t 6) s; n; c] ++ d).
  rewrite py_slice_from_skipn by (rewrite length_app; simpl length; lia).
  reflexivity.
Qed.

(** X1: whatever frame [decode] accepts, encoding the decoded message gives
    back the data bytes of the frame; and if the frame holds at most eight
    bytes, each in 0..255, the decoded fields are in their ranges (type
    0..3, subject 0..63, payload of at most four bytes). *)
Theorem encode_decode (f : can.Message) (m : Message) :
  decode f = Return m ->
  can.data (encode m) = can.data f
  /\ (byte_frame f -> valid_message m).
Proof.
  unfold decode. destruct f as [i d e r]. cbn [can.data can.extended can.rtr].
  destruct ((Z.of_nat (length d) <? 4) || e || r); [discriminate|].
  destruct d as [|d0 [|d1 [|d2 [|d3 rest]]]]; try discriminate.
  change (d0 :: d1 :: d2 :: d3 :: rest) with ([d0; d1; d2; d3] ++ rest).
  rewrite py_slice_from_skipn by (rewrite length_app; simpl length; lia).
  intros H. injection H as <-. split.
  - unfold encode.
    cbn [can.data board_id type subject number data_counter data app skipn].
    now rewrite header_repack.
  - intros [Hbytes Hlen]. cbn [can.data app] in Hbytes, Hlen.
    inversion Hbytes as [|? ? H0 Hb1]; subst.
    inversion Hb1 as [|? ? H1 Hb2]; subst.
    inversion Hb2 as [|? ? H2 Hb3]; subst.
    inversion Hb3 as [|? ? H3 _]; subst.
    destruct (header_fields H1) as [Ht Hs].
    split; cbn [board_id type subject number data_counter data skipn app];
      try lia; try assumption.
    simpl in Hlen. lia.
Qed.

Lemma encode_decode_witness :
  can.data (encode success_identify) = can.data identify_answer_frame
  /\ (byte_frame identify_answer_frame -> valid_message success_identify).
Proof.
  apply (@encode_decode identify_answer_frame success_identify).
  reflexivity.
Defined.

(** X2: the dispatcher never raises.  It puts a frame on the queue exactly
    when the frame is standard, not RTR, has at least four data bytes and its
    first byte is the id of the board; what it puts is the decoded frame.
    A request of the host itself (identifier 0x7ff) does not pass the filter,
    and the answer frame of a well-formed message for this board passes it
    and arrives as that message. *)
Theorem dispatcher_delivers (self : Bootloader) (f : can.Message)
  (inbox : list Message) :
  fst (_get_message self f inbox) = Return tt
  /\ ((bad_format f \/ nth 0 (can.data f) 0 <> ProgrammeableBoard.id (board self))
      -> snd (_get_message self f inbox) = inbox)
  /\ (~ bad_format f
      -> nth 0 (can.data f) 0 = ProgrammeableBoard.id (board self)
      -> exists m, decode f = Return m
                   /\ snd (_get_message self f inbox) = inbox ++ [m])
  /\ (forall m, BootloaderFilter.check (encode m) = false)
  /\ (forall m, valid_message m ->
                board_id m = ProgrammeableBoard.id (board self) ->
                BootloaderFilter.check (response_frame m) = true
                /\ _get_message self (response_frame m) inbox
                   = (Return tt, inbox ++ [m])).
Proof.
  assert (Hcases :
    (bad_format f /\ decode f = Raise (BootloaderException BadFormat))
    \/ (~ bad_format f
        /\ exists d0 d1 d2 d3 rest,
             can.data f = d0 :: d1 :: d2 :: d3 :: rest
             /\ decode f = Return (Build_Message d0 (Z.shiftr d1 6)
                                     (Z.land d1 0x3f) d2 d3 rest))).
  { destruct f as [i d e r]. unfold bad_format, decode.
    cbn [can.data can.extended can.rtr].
    destruct e; [left; split; [now left|now rewrite orb_true_r]|].
    destruct r; [left; split; [now right; left|now rewrite orb_true_r]|].
    rewrite !orb_false_r.
    destruct d as [|d0 [|d1 [|d2 [|d3 rest]]]];
      try (left; split; [right; right; simpl; lia|reflexivity]).
    right. split.
    - intros [H|[H|H]]; try discriminate. simpl in H. lia.
    - exists d0, d1, d2, d3, rest. split; [reflexivity|].
      replace (Z.of_nat (length (d0 :: d1 :: d2 :: d3 :: rest)) <? 4)
        with false by (symmetry; apply Z.ltb_ge; simpl length; lia).
      change (d0 :: d1 :: d2 :: d3 :: rest) with ([d0; d1; d2; d3] ++ rest).
      rewrite py_slice_from_skipn by (rewrite length_app; simpl length; lia).
      reflexivity. }
  split; [|split; [|split; [|split]]].
  - unfold _get_message.
    destruct Hcases as [[_ ->]|[_ (d0 & d1 & d2 & d3 & rest & _ & ->)]];
      [reflexivity|].
    cbn [board_id]. now destruct (d0 =? _).
  - unfold _get_message.
    destruct Hcases as [[_ ->]|[Hok (d0 & d1 & d2 & d3 & rest & Hd & ->)]];
      [reflexivity|].
    intros [Hbad|Hid]; [contradiction|].
    rewrite Hd in Hid. cbn [nth board_id] in *.
    destruct (Z.eqb_spec d0 (ProgrammeableBoard.id (board self)));
      [contradiction|reflexivity].
  - intros Hok Hid. unfold _get_message.
    destruct Hcases as [[Hbad _]|[_ (d0 & d1 & d2 & d3 & rest & Hd & ->)]];
      [contradiction|].
    eexists. split; [reflexivity|].
    rewrite Hd in Hid. cbn [nth board_id] in *.
    rewrite Hid, Z.eqb_refl. reflexivity.
  - intros m. reflexivity.
  - intros m Hm Hid. split; [reflexivity|].
    unfold _get_message.
    replace (decode (response_frame m)) with (decode (encode m))
      by reflexivity.
    rewrite decode_encode_eq by (destruct Hm; lia).
    rewrite Hid, Z.eqb_refl. reflexivity.
Qed.

Lemma dispatcher_delivers_witness :
  BootloaderFilter.check (response_frame success_identify) = true
  /\ _get_message (init 5 []) (response_frame success_identify) []
     = (Return tt, [success_identify]).
Proof.
  refine (proj2 (proj2 (proj2 (proj2
            (@dispatcher_delivers (init 5 []) identify_answer_frame []))))
            success_identify _ eq_refl).
  split; unfold success_identify, MessageType.SUCCESS, MessageSubject.IDENTIFY;
    simpl; lia.
Defined.

(** ** The request engine: retries, stale messages, failures *)

Section Retries.
Variable attempts : Z.
Hypothesis Hattempts : 0 < attempts.

Lemma exhausted_last (repeats : Z) :
  repeats < attempts ->
  exhausted attempts (repeats + 1) = true -> repeats + 1 = attempts.
Proof.
  unfold exhausted. intros Hr H. apply andb_prop in H. destruct H as [_ H].
  apply Z.leb_le in H. lia.
Qed.

Lemma exhausted_not_yet (repeats : Z) :
  exhausted attempts (repeats + 1) = false -> repeats + 1 < attempts.
Proof.
  unfold exhausted. intros H. apply andb_false_iff in H.
  destruct H as [H|H]; [apply Z.ltb_ge in H; lia|apply Z.leb_gt in H; lia].
Qed.

(** With a bound on the attempts the loops end, after at most
    [attempts - repeats - 1] further transmissions, with an answer or a
    [BootloaderException]. *)
Lemma wait_silent_bound k message repeats self o self' :
  repeats < attempts ->
  attempts - repeats - 1 <= Z.of_nat k ->
  wait_silent k attempts message repeats self = (o, self') ->
  o = Raise (BootloaderException (NoResponse attempts))
  /\ interface self'
     = interface self
         ++ repeat (encode message) (Z.to_nat (attempts - repeats - 1)).
Proof.
  revert repeats self. induction k as [|k IH]; intros repeats self Hr Hk;
    simpl; destruct (exhausted attempts (repeats + 1)) eqn:Hex.
  - apply exhausted_last in Hex; [|assumption]. intros H. inversion H; subst.
    replace (repeats + 1 - repeats - 1) with 0 by lia.
    simpl. now rewrite app_nil_r.
  - apply exhausted_not_yet in Hex. lia.
  - apply exhausted_last in Hex; [|assumption]. intros H. inversion H; subst.
    replace (repeats + 1 - repeats - 1) with 0 by lia.
    simpl. now rewrite app_nil_r.
  - apply exhausted_not_yet in Hex. intros H. apply IH in H; try lia.
    destruct H as [-> Hi]. split; [reflexivity|]. rewrite Hi.
    cbn [interface transmit]. rewrite <- app_assoc. f_equal.
    replace (Z.to_nat (attempts - repeats - 1))
      with (S (Z.to_nat (attempts - (repeats + 1) - 1))) by lia.
    reflexivity.
Qed.

Lemma wait_response_bound obs message repeats self o self' :
  0 <= repeats < attempts ->
  wait_response attempts obs message repeats self = (o, self') ->
  (exists frames,
      interface self' = interface self ++ frames
      /\ Z.of_nat (length frames) <= attempts - repeats - 1)
  /\ ((exists r, o = Return r) \/ exists w, o = Raise (BootloaderException w)).
Proof.
  revert message repeats self.
  induction obs as [|[r|] obs IH]; intros message repeats self Hr; simpl.
  - intros H. apply wait_silent_bound in H; try lia.
    destruct H as [-> Hi]. split; [|right; eauto].
    eexists. split; [exact Hi|]. rewrite repeat_length. lia.
  - pose proof (wrong_number_state r message self) as Hs.
    destruct (wrong_number r message self) as [message1 self1].
    simpl in Hs. destruct Hs as (_ & Hi1 & _).
    response_cases r message.
    + destruct (exhausted attempts (repeats + 1)); intros H; inversion H;
        subst; (split; [exists []; rewrite app_nil_r; split;
                        [reflexivity|simpl; lia]|eauto]).
    + destruct (exhausted attempts (repeats + 1)) eqn:Hex; intros H.
      * inversion H; subst. split; [|right; eauto].
        exists []. rewrite app_nil_r. split; [congruence|simpl; lia].
      * apply exhausted_not_yet in Hex. apply IH in H; [|lia].
        destruct H as [(frames & Hi & Hlen) Ho]. split; [|exact Ho].
        exists (encode message1 :: frames). split.
        -- rewrite Hi. cbn [interface transmit]. rewrite Hi1.
           now rewrite <- app_assoc.
        -- simpl length. lia.
    + intros H; inversion H; subst. split; [|right; eauto].
      exists []. rewrite app_nil_r. split; [reflexivity|simpl; lia].
    + apply IH. exact Hr.
  - destruct (exhausted attempts (repeats + 1)) eqn:Hex; intros H.
    + inversion H; subst. split; [|right; eauto].
      exists []. rewrite app_nil_r. split; [reflexivity|simpl; lia].
    + apply exhausted_not_yet in Hex. apply IH in H; [|lia].
      destruct H as [(frames & Hi & Hlen) Ho]. split; [|exact Ho].
      exists (encode message :: frames). split.
      * rewrite Hi. cbn [interface transmit]. now rewrite <- app_assoc.
      * simpl length. lia.
Qed.

End Retries.

(** The outcome of [_send] with [response=True] from that of its loops. *)
Lemma send_response_outcome subj payload counter attempts self o self' :
  _send subj payload counter true attempts self = (o, self') ->
  exists o1 self1,
    wait_response attempts (observations self)
      (request self subj payload counter) 0
      (transmit (request self subj payload counter)
         (set_msg_queue self (snd (next_observations (msg_queue self)))))
    = (o1, self1)
    /\ match o1 with
       | Return r =>
           o = Return (Some r)
           /\ self' = set_msg_number self1 ((msg_number self1 + 1) mod 256)
       | Raise e => o = Raise e /\ self' = self1
       | Diverge => o = Diverge /\ self' = self1
       | OutOfFuel => o = OutOfFuel /\ self' = self1
       end.
Proof.
  unfold _send, observations, request. simpl negb. cbv iota.
  destruct (next_observations (msg_queue self)) as [obs rest].
  simpl fst. simpl snd.
  match goal with
  | |- context [wait_response ?a ?b ?c ?d ?e] =>
      destruct (wait_response a b c d e) as [o1 self1] eqn:Hw
  end.
  intros H. exists o1, self1. split; [reflexivity|].
  destruct o1; inversion H; subst; split; try reflexivity.
  now rewrite land_0xff.
Qed.

(** With a bound on the attempts a request ends with an answer or with a
    [BootloaderException]. *)
Lemma send_ends (subj : Z) (payload : list Z) (counter attempts : Z)
  (self : Bootloader) o self' :
  0 < attempts ->
  _send subj payload counter true attempts self = (o, self') ->
  (exists r, o = Return (Some r))
  \/ exists w, o = Raise (BootloaderException w).
Proof.
  intros Ha H. apply send_response_outcome in H.
  destruct H as (o1 & self1 & Hw & Hcases).
  apply wait_response_bound in Hw; [|assumption|lia].
  destruct Hw as [_ [[r ->]|[w ->]]]; destruct Hcases as [-> _]; eauto.
Qed.





(** Messages with another subject do not count. *)
Lemma wait_response_relevant attempts obs message repeats self :
  wait_response attempts obs message repeats self
  = wait_response attempts (filter (relevant (subject message)) obs) message
      repeats self.
Proof.
  revert message repeats self.
  induction obs as [|[r|] obs IH]; intros message repeats self.
  - reflexivity.
  - cbn [filter relevant wait_response].
    destruct (Z.eqb_spec (subject r) (subject message)) as [Hs|Hs].
    + cbn [wait_response]. rewrite <- Hs, Z.eqb_refl.
      destruct (type r =? MessageType.SUCCESS); [reflexivity|].
      destruct (type r =? MessageType.WRONG_NUMBER); [|reflexivity].
      pose proof (wrong_number_subject r message self) as Hsub.
      destruct (wrong_number r message self) as [message1 self1].
      simpl in Hsub.
      destruct (exhausted attempts (repeats + 1)); [reflexivity|].
      rewrite IH. now rewrite Hsub, Hs.
    + apply IH.
  - cbn [filter relevant wait_response].
    destruct (exhausted attempts (repeats + 1)); [reflexivity|]. apply IH.
Qed.

Lemma send_ignores_other_subjects_eq (subj : Z) (payload : list Z)
  (counter attempts : Z) (self : Bootloader) obs q :
  msg_queue self = obs :: q ->
  _send subj payload counter true attempts self
  = _send subj payload counter true attempts
      (set_msg_queue self (filter (relevant subj) obs :: q)).
Proof.
  intros Hq. unfold _send. simpl negb. cbv iota.
  rewrite Hq. cbn [msg_queue set_msg_queue next_observations].
  rewrite wait_response_relevant. reflexivity.
Qed.

(** X5: a request is blind to messages with a subject other than its own:
    dropping them all from what it observes changes neither its outcome nor
    the state it leaves. *)
Theorem send_ignores_other_subjects (subj : Z) (payload : list Z)
  (counter attempts : Z) (self : Bootloader) obs q :
  msg_queue self = obs :: q ->
  _send subj payload counter true attempts self
  = _send subj payload counter true attempts
      (set_msg_queue self (filter (relevant subj) obs :: q)).
Proof.
  intros Hq. now apply send_ignores_other_subjects_eq.
Qed.

Lemma send_ignores_other_subjects_witness :
  _send MessageSubject.IDENTIFY [] default_counter true default_attempts
    (init 5 [[Some stale_data_answer; Some success_identify]])
  = _send MessageSubject.IDENTIFY [] default_counter true default_attempts
      (init 5 [[Some success_identify]]).
Proof.
  apply (@send_ignores_other_subjects MessageSubject.IDENTIFY [] default_counter
           default_attempts
           (init 5 [[Some stale_data_answer; Some success_identify]])
           [Some stale_data_answer; Some success_identify] []).
  reflexivity.
Defined.




(** X7: [msg_number] stays a byte: if it is in 0..255 before a call of
    [_send] and the numbers of the messages the call observes are bytes (as
    those of decoded frames are), it is in 0..255 after the call, however the
    call ends. *)
Theorem send_msg_number_byte (subj : Z) (payload : list Z) (counter : Z)
  (response : bool) (attempts : Z) (self : Bootloader) o self' :
  0 <= msg_number self < 256 ->
  byte_numbers (observations self) ->
  _send subj payload counter response attempts self = (o, self') ->
  0 <= msg_number self' < 256.
Proof.
  intros Hn Hobs H. destruct response.
  - apply send_response_outcome in H.
    destruct H as (o1 & self1 & Hw & Hcases).
    apply wait_response_msg_number in Hw; [|reflexivity].
    cbn [msg_number transmit set_msg_queue] in Hw.
    assert (H1 : 0 <= msg_number self1 < 256).
    { destruct Hw as [->|(_ & r & Hin & _ & _ & ->)]; [assumption|].
      apply Hobs. exact Hin. }
    destruct o1; destruct Hcases as [_ ->]; try assumption.
    cbn [msg_number set_msg_number]. apply Z.mod_pos_bound. lia.
  - rewrite send_no_response in H. inversion H; subst.
    cbn [msg_number set_msg_number]. apply Z.mod_pos_bound. lia.
Qed.

Lemma send_msg_number_byte_witness :
  0 <= msg_number
         (snd (_send MessageSubject.IDENTIFY [] default_counter true 10
                 (init 5 [[Some wrong_number_0x42; Some success_identify]])))
    < 256.
Proof.
  apply (@send_msg_number_byte MessageSubject.IDENTIFY [] default_counter true
           10 (init 5 [[Some wrong_number_0x42; Some success_identify]])
           (fst (_send MessageSubject.IDENTIFY [] default_counter true 10
                   (init 5 [[Some wrong_number_0x42; Some success_identify]])))).
  - simpl. lia.
  - intros r [Hr|[Hr|[]]]; injection Hr as <-; simpl; lia.
  - reflexivity.
Defined.



(** ** [identify] *)

(** The loop of [identify] ends only with a [SUCCESS] answer to an
    [IDENTIFY] request, or with an exception that is not a
    [BootloaderException]. *)
Lemma identify_loop_outcome (fuel : nat) (self : Bootloader) o self' :
  identify_loop fuel self = (o, self') ->
  (exists r, o = Return (Some r)
             /\ subject r = MessageSubject.IDENTIFY
             /\ type r = MessageType.SUCCESS)
  \/ o = OutOfFuel.
Proof.
  revert self. induction fuel as [|fuel IH]; intros self; simpl.
  - intros H. inversion H. now right.
  - unfold _start_bootloader_command.
    change (bind (ret tt)
              (fun _ => _send MessageSubject.IDENTIFY [] default_counter true 10)
              self)
      with (_send MessageSubject.IDENTIFY [] default_counter true 10 self).
    destruct (_send MessageSubject.IDENTIFY [] default_counter true 10 self)
      as [o1 self1] eqn:Hsend.
    destruct (@send_ends MessageSubject.IDENTIFY [] default_counter 10 self
                o1 self1 eq_refl Hsend) as [[r ->]|[w ->]].
    + intros H. inversion H; subst. left. exists r.
      apply send_returns_success in Hsend. tauto.
    + apply IH.
Qed.

Lemma fill_board_cases (r : Message) (self : Bootloader) o self' :
  fill_board (Some r) self = (o, self') ->
  ProgrammeableBoard.id (board self') = ProgrammeableBoard.id (board self)
  /\ msg_number self' = msg_number self
  /\ ((exists d0 code d2 d3 rest,
          data r = d0 :: code :: d2 :: d3 :: rest
          /\ 0 <= code <= 3
          /\ o = Return tt
          /\ board self'
             = ProgrammeableBoard.Build (ProgrammeableBoard.id (board self))
                 true (Some (Z.shiftr d0 4)) (Z.land d0 0x0F)
                 (Z.shiftl d2 8 + d3) (32 * 2 ^ code))
      \/ ((o = Raise KeyError \/ o = Raise IndexError)
          /\ ProgrammeableBoard.connected (board self')
             = ProgrammeableBoard.connected (board self)
          /\ ProgrammeableBoard.pages (board self')
             = ProgrammeableBoard.pages (board self)
          /\ (o = Raise KeyError ->
              exists d0 code rest,
                data r = d0 :: code :: rest /\ ~ 0 <= code <= 3
                /\ ProgrammeableBoard.bootloader_type (board self')
                   = Some (Z.shiftr d0 4)
                /\ ProgrammeableBoard.pagesize (board self')
                   = ProgrammeableBoard.pagesize (board self)))).
Proof.
  unfold fill_board.
  destruct (data r) as [|d0 [|code [|d2 [|d3 rest]]]];
    cbv [py_index nth_error bind ret raise update_board set_board
         pagesize_table];
    try destruct (Z.eqb_spec code 0); try destruct (Z.eqb_spec code 1);
    try destruct (Z.eqb_spec code 2); try destruct (Z.eqb_spec code 3);
    intros H; inversion H; subst; cbn [board msg_number ProgrammeableBoard.id
      ProgrammeableBoard.connected ProgrammeableBoard.pages
      ProgrammeableBoard.pagesize ProgrammeableBoard.bootloader_type];
    (split; [reflexivity|split; [reflexivity|]]);
    first
      [ left; eexists _, _, _, _, _;
        split; [reflexivity|split; [lia|split; reflexivity]]
      | right; split; [right; reflexivity|];
        repeat split; discriminate
      | right; split; [left; reflexivity|];
        repeat split; intros _;
        eexists _, _, _; split; [reflexivity|split; [lia|split; reflexivity]]
      ].
Qed.



(** X10: [identify] never raises a [BootloaderException] and never hangs in
    a single request: it returns, runs on (the fuel of the loop is used up),
    or raises [KeyError] (the page-size code of the answer is not 0..3) or
    [IndexError] (the answer has fewer than four data bytes).  When it
    raises, the board is not marked connected and its page count is
    untouched; after a [KeyError] the type of the answer is already written
    to the board while the page size is still the old one. *)
Theorem identify_outcomes (fuel : nat) (self : Bootloader) o self' :
  identify fuel self = (o, self') ->
  (o = Return tt \/ o = OutOfFuel \/ o = Raise KeyError \/ o = Raise IndexError)
  /\ ProgrammeableBoard.id (board self') = ProgrammeableBoard.id (board self)
  /\ (o <> Return tt ->
      ProgrammeableBoard.connected (board self')
      = ProgrammeableBoard.connected (board self)
      /\ ProgrammeableBoard.pages (board self')
         = ProgrammeableBoard.pages (board self))
  /\ (o = Raise KeyError ->
      ProgrammeableBoard.bootloader_type (board self') <> None
      /\ ProgrammeableBoard.pagesize (board self')
         = ProgrammeableBoard.pagesize (board self)).
Proof.
  unfold identify, bind.
  destruct (identify_loop fuel self) as [o1 s1] eqn:Hloop.
  pose proof (identify_loop_frames _ _ Hloop) as [Hb _].
  apply identify_loop_outcome in Hloop.
  destruct Hloop as [(r & -> & _ & _)| ->].
  - intros Hfill. apply fill_board_cases in Hfill. rewrite Hb in Hfill.
    destruct Hfill as (Hid & _ & [(d0 & code & d2 & d3 & rest & _ & _ & -> & _)
                                 |(Ho & Hc & Hp & Hk)]).
    + split; [now left|]. split; [exact Hid|].
      split; [intros Hne; now elim Hne|discriminate].
    + split; [tauto|]. split; [exact Hid|]. split; [tauto|].
      intros Hkey. destruct (Hk Hkey) as (d0 & code & rest & _ & _ & Ht & Hps).
      split; [rewrite Ht; discriminate|exact Hps].
  - intros H. inversion H; subst. rewrite Hb.
    split; [tauto|]. split; [reflexivity|].
    split; [tauto|discriminate].
Qed.

Lemma identify_outcomes_witness :
  ProgrammeableBoard.bootloader_type
    (board (snd (identify 1 (init 5 [[Some bad_code_answer]])))) <> None
  /\ ProgrammeableBoard.pagesize
       (board (snd (identify 1 (init 5 [[Some bad_code_answer]])))) = 0.
Proof.
  apply (proj2 (proj2 (proj2
           (@identify_outcomes 1 (init 5 [[Some bad_code_answer]])
              (Raise KeyError)
              (snd (identify 1 (init 5 [[Some bad_code_answer]])))
              eq_refl)))).
  reflexivity.
Defined.

(** ** [program_page] *)

Lemma nothing_remains (pagesize : Z) :
  pagesize <= 0 -> py_gt (py_truediv (PInt pagesize) 4) (PInt 0) = false.
Proof.
  intros Hp. unfold py_gt, py_lt, py_truediv, to_Q.
  apply negb_false_iff. apply Qle_bool_iff. rewrite Qred_correct.
  unfold Qle, Qdiv, Qmult, Qinv, inject_Z. simpl. lia.
Qed.

(** X11: on a board whose page size is not positive (a board that was never
    identified has page size 0) [program_page] sends nothing and raises
    [UnboundLocalError]: the loop is not entered and the answer it is to
    check was never assigned. *)
Theorem program_page_unidentified (fuel : nat) (page : Z) (text : list ascii)
  (addressAlreadySet : bool) (self : Bootloader) :
  ProgrammeableBoard.pagesize (board self) <= 0 ->
  program_page fuel page text addressAlreadySet self
  = (Raise UnboundLocalError, self).
Proof.
  intros Hp. unfold program_page, bind.
  rewrite page_loop_done by (apply nothing_remains; exact Hp).
  reflexivity.
Qed.

Lemma program_page_unidentified_witness :
  program_page 8 0 ["A"; "B"]%char false (init 5 [])
  = (Raise UnboundLocalError, init 5 []).
Proof.
  apply (@program_page_unidentified 8 0 ["A"; "B"]%char false (init 5 [])).
  simpl. lia.
Defined.

(** A block whose last frame is answered at once. *)
Lemma send_block_answered (B O : Z) (padded : list Z) (self : Bootloader)
  (r : Message) obs q :
  1 < B ->
  msg_queue self = (Some r :: obs) :: q ->
  subject r = MessageSubject.DATA ->
  type r = MessageType.SUCCESS ->
  exists s2 frames,
    send_block (PInt B) (PInt O) padded self = (Return (Some r), s2)
    /\ interface s2 = interface self ++ frames
    /\ map frame_view frames = map block_frame_view (block_frames B O padded)
    /\ msg_queue s2 = q
    /\ board s2 = board self.
Proof.
  intros HB Hq Hs Ht.
  rewrite send_block_frames by lia.
  rewrite block_frames_split by lia. rewrite send_frames_seq_last.
  set (fs := block_frame_at B O padded 0
             :: map (block_frame_at B O padded) (seq 1 (Z.to_nat (B - 2)))).
  set (last := block_frame_at B O padded (S (Z.to_nat (B - 2)))).
  destruct (@send_prefix_run fs (send_frame last) self)
    as (s1 & frames & Hrun & Hb & Hq1 & Hi & Hv).
  { intros f Hf. apply in_map_iff with (f := block_frame_at B O padded)
                   (l := seq 0 (S (Z.to_nat (B - 2)))) in Hf.
    destruct Hf as (j & <- & Hj). apply in_seq in Hj.
    unfold block_frame_at. cbn [frame_response]. apply Z.eqb_neq. lia. }
  rewrite Hrun. unfold send_frame.
  assert (Hresp : frame_response last = true).
  { unfold last, block_frame_at. cbn [frame_response]. apply Z.eqb_eq. lia. }
  rewrite Hresp.
  rewrite (@send_accepts_success MessageSubject.DATA (frame_payload last)
             (frame_counter last) default_attempts s1 r obs q)
    by (try assumption; try reflexivity; congruence).
  eexists. exists (frames ++ [encode (request s1 MessageSubject.DATA
                                 (frame_payload last) (frame_counter last))]).
  split; [reflexivity|]. repeat split.
  - cbn [interface set_msg_number transmit set_msg_queue]. rewrite Hi.
    now rewrite <- app_assoc.
  - rewrite !map_app, Hv. reflexivity.
  - exact Hb.
Qed.

(** The loop of [program_page] on a page of 256 bytes, once the address is
    set: one block of 64 frames. *)
Lemma page_loop_full_page (fuel : nat) (page : Z) (padded : list Z)
  (address : bool) (self s1 : Bootloader) (r : Message) obs q :
  set_address page (PInt 0) address self = (Return tt, s1) ->
  msg_queue s1 = (Some r :: obs) :: q ->
  subject r = MessageSubject.DATA ->
  type r = MessageType.SUCCESS ->
  exists s2 frames,
    page_loop (S fuel) page padded (PFloat 64) (PInt 64) (PInt 0) address None
      self
    = (Return (Some (Some r)), s2)
    /\ interface s2 = interface s1 ++ frames
    /\ map frame_view frames = map block_frame_view (block_frames 64 0 padded)
    /\ msg_queue s2 = q
    /\ board s2 = board s1.
Proof.
  intros Hset Hq Hs Ht.
  destruct (@send_block_answered 64 0 padded s1 r obs q)
    as (s2 & frames & Hblock & Hi & Hv & Hq2 & Hb); try assumption; [lia|].
  exists s2, frames. repeat split; try assumption.
  cbn [page_loop].
  change (py_gt (PFloat 64) (PInt 0)) with true. cbn [negb].
  rewrite Hset. cbv iota beta.
  change (py_lt (PFloat 64) (PInt 64)) with false. cbv iota.
  rewrite Hblock. rewrite page_loop_done by reflexivity. reflexivity.
Qed.

Lemma page_payloads (text : list ascii) (frames : list can.Message) :
  (length text <= 256)%nat ->
  map frame_view frames
  = map block_frame_view (block_frames 64 0 (amend 256 (map ord text))) ->
  concat (map (fun f => skipn 4 (can.data f)) frames)
  = map ord text ++ repeat 0xff (256 - length text)
  /\ length frames = 64%nat
  /\ Forall (fun f => is_data f = true) frames.
Proof.
  intros Hlen Hv.
  set (padded := amend 256 (map ord text)) in *.
  assert (Hpad : Z.of_nat (length padded) = 256).
  { apply amend_length. rewrite length_map. lia. }
  split; [|split].
  - transitivity (concat (map (fun v => snd v) (map frame_view frames))).
    { rewrite map_map. reflexivity. }
    rewrite Hv, map_map.
    change (fun x => snd (block_frame_view x)) with frame_payload.
    unfold block_frames. rewrite map_map.
    rewrite (@block_payloads_concat 64 0 padded (Z.to_nat 64) 0) by lia.
    change ((0 + Z.of_nat 0) * 4) with 0.
    change ((0 + Z.of_nat 0 + Z.of_nat (Z.to_nat 64)) * 4) with 256.
    rewrite py_slice_nonneg by lia. cbn [Z.to_nat skipn].
    rewrite firstn_all2 by lia.
    unfold padded, amend. rewrite length_map.
    destruct (Z.ltb_spec (Z.of_nat (length text)) 256).
    + do 2 f_equal. lia.
    + replace (256 - length text)%nat with 0%nat by lia.
      now rewrite app_nil_r.
  - apply (f_equal (@length _)) in Hv. rewrite !length_map in Hv.
    rewrite Hv. unfold block_frames. now rewrite length_map, length_seq.
  - apply Forall_forall. intros f Hf.
    assert (Hin : In (frame_view f) (map frame_view frames))
      by now apply in_map.
    rewrite Hv in Hin. apply in_map_iff in Hin.
    destruct Hin as (b & Hb & _). unfold is_data.
    apply (f_equal (fun v => fst (fst v))) in Hb. cbn [fst] in Hb.
    unfold block_frame_view, frame_view in Hb. cbn [fst] in Hb.
    rewrite <- Hb. reflexivity.
Qed.

(** The check of the echoed page, case by case. *)
Lemma check_answer_cases (page : Z) (r : Message) (self : Bootloader) :
  check_answer page (Some (Some r)) self
  = (match data r with
     | a0 :: a1 :: _ =>
         if Z.lor (Z.shiftl a0 8) a1 =? page then Return tt
         else Raise (BootloaderException (PageMismatch page))
     | _ => Raise IndexError
     end, self).
Proof.
  unfold check_answer, py_index, bind, ret, raise.
  destruct (data r) as [|a0 [|a1 echo]]; cbn [nth_error]; try reflexivity.
  destruct (Z.lor (Z.shiftl a0 8) a1 =? page); reflexivity.
Qed.

(** A page of a board with pages of 256 bytes whose block is answered at
    once: what is left is the check of the answer. *)
Lemma program_page_full_block (fuel : nat) (page : Z) (text : list ascii)
  (address : bool) (self s1 : Bootloader) (r : Message) obs q :
  ProgrammeableBoard.pagesize (board self) = 256 ->
  set_address page (PInt 0) address self = (Return tt, s1) ->
  msg_queue s1 = (Some r :: obs) :: q ->
  subject r = MessageSubject.DATA ->
  type r = MessageType.SUCCESS ->
  exists s2 frames,
    program_page (S fuel) page text address self
    = check_answer page (Some (Some r)) s2
    /\ interface s2 = interface s1 ++ frames
    /\ map frame_view frames
       = map block_frame_view (block_frames 64 0 (amend 256 (map ord text)))
    /\ msg_queue s2 = q
    /\ board s2 = board s1.
Proof.
  intros Hps Hset Hq Hs Ht. unfold program_page. rewrite Hps.
  destruct (@page_loop_full_page fuel page (amend 256 (map ord text)) address
              self s1 r obs q)
    as (s2 & frames & Hloop & Hi & Hv & Hq2 & Hb); try assumption.
  exists s2, frames. repeat split; try assumption.
  unfold bind. change (py_truediv (PInt 256) 4) with (PFloat 64).
  rewrite Hloop. reflexivity.
Qed.

(** The [SET_ADDRESS] request of a page, answered at once. *)
Lemma set_address_answered (page : Z) (self : Bootloader) (a : Message) obs q :
  msg_queue self = (Some a :: obs) :: q ->
  subject a = MessageSubject.SET_ADDRESS ->
  type a = MessageType.SUCCESS ->
  set_address page (PInt 0) false self
  = (Return tt,
     set_msg_number
       (transmit (request self MessageSubject.SET_ADDRESS
                    [Z.shiftr page 8; Z.land page 0xff; 0; 0] default_counter)
          (set_msg_queue self q))
       ((msg_number self + 1) mod 256)).
Proof.
  intros Hq Hs Ht. unfold set_address, as_int, bind, ret.
  rewrite (@send_accepts_success MessageSubject.SET_ADDRESS
             [Z.shiftr page 8; Z.land page 0xff; 0; 0] default_counter
             default_attempts self a obs q) by (assumption || reflexivity).
  reflexivity.
Qed.

(** X12: on a board with pages of 256 bytes, a page of at most 256 bytes
    whose address is already set goes out as one block of 64 [DATA] frames
    that carry the data followed by [0xff] up to the page size; when the
    last frame is answered with [SUCCESS] at once, the call returns exactly
    if the first two bytes of the answer are the page number (big endian),
    raises "Could not write page" if they are another number, and an
    [IndexError] if the answer has fewer than two data bytes.  In each case
    the whole block has been transmitted by then. *)
Theorem page_echo_checked (fuel : nat) (page : Z) (text : list ascii)
  (self : Bootloader) (r : Message) obs q :
  ProgrammeableBoard.pagesize (board self) = 256 ->
  (length text <= 256)%nat ->
  msg_queue self = (Some r :: obs) :: q ->
  subject r = MessageSubject.DATA ->
  type r = MessageType.SUCCESS ->
  exists self' frames,
    program_page (S fuel) page text true self
    = (match data r with
       | a0 :: a1 :: _ =>
           if Z.lor (Z.shiftl a0 8) a1 =? page then Return tt
           else Raise (BootloaderException (PageMismatch page))
       | _ => Raise IndexError
       end, self')
    /\ interface self' = interface self ++ frames
    /\ length frames = 64%nat
    /\ Forall (fun f => is_data f = true) frames
    /\ payloads frames = map ord text ++ repeat 0xff (256 - length text)
    /\ msg_queue self' = q.
Proof.
  intros Hps Hlen Hq Hs Ht.
  destruct (@program_page_full_block fuel page text true self self r obs q)
    as (s2 & frames & Hrun & Hi & Hv & Hq2 & _); try assumption;
    [reflexivity|].
  destruct (page_payloads text frames Hlen Hv) as (Hp & Hn & Hd).
  exists s2, frames. rewrite Hrun, check_answer_cases.
  repeat split; assumption.
Qed.

Lemma page_echo_checked_witness :
  exists self' frames,
    program_page 1 3 ["A"; "B"]%char true
      (session 256 [[success MessageSubject.DATA [0; 7]]])
    = (Raise (BootloaderException (PageMismatch 3)), self')
    /\ interface self' = [] ++ frames
    /\ length frames = 64%nat
    /\ Forall (fun f => is_data f = true) frames
    /\ payloads frames = map ord ["A"; "B"]%char ++ repeat 0xff (256 - 2)
    /\ msg_queue self' = [].
Proof.
  apply (@page_echo_checked 0 3 ["A"; "B"]%char
           (session 256 [[success MessageSubject.DATA [0; 7]]])
           (Build_Message 5 MessageType.SUCCESS MessageSubject.DATA 0 0x80
              [0; 7]) [] []); try reflexivity.
  simpl. lia.
Defined.

(** X13: when the address is not yet set, [program_page] first sends
    [SET_ADDRESS] with the payload [page >> 8, page & 0xff, 0, 0]; once
    that is answered with [SUCCESS], the 64 [DATA] frames of the page
    follow, and the call returns when the answer to the last one echoes
    the page number. *)
Theorem page_address_first (fuel : nat) (page : Z) (text : list ascii)
  (self : Bootloader) (a r : Message) obs0 obs q a0 a1 echo :
  ProgrammeableBoard.pagesize (board self) = 256 ->
  (length text <= 256)%nat ->
  msg_queue self = (Some a :: obs0) :: (Some r :: obs) :: q ->
  subject a = MessageSubject.SET_ADDRESS ->
  type a = MessageType.SUCCESS ->
  subject r = MessageSubject.DATA ->
  type r = MessageType.SUCCESS ->
  data r = a0 :: a1 :: echo ->
  Z.lor (Z.shiftl a0 8) a1 = page ->
  exists self' frames,
    program_page (S fuel) page text false self = (Return tt, self')
    /\ interface self'
       = interface self
         ++ encode (request self MessageSubject.SET_ADDRESS
                      [Z.shiftr page 8; Z.land page 0xff; 0; 0]
                      default_counter)
         :: frames
    /\ length frames = 64%nat
    /\ Forall (fun f => is_data f = true) frames
    /\ payloads frames = map ord text ++ repeat 0xff (256 - length text)
    /\ msg_queue self' = q.
Proof.
  intros Hps Hlen Hq Hsa Hta Hs Ht Hd Hecho.
  pose proof (@set_address_answered page self a obs0 ((Some r :: obs) :: q)
                Hq Hsa Hta) as Hset.
  destruct (@program_page_full_block fuel page text false self _ r obs q
              Hps Hset eq_refl Hs Ht)
    as (s2 & frames & Hrun & Hi & Hv & Hq2 & _).
  destruct (page_payloads text frames Hlen Hv) as (Hp & Hn & Hall).
  exists s2, frames. rewrite Hrun, check_answer_cases, Hd, Hecho, Z.eqb_refl.
  repeat split; try assumption.
  rewrite Hi. cbn [interface set_msg_number transmit set_msg_queue].
  now rewrite <- app_assoc.
Qed.

Lemma page_address_first_witness :
  exists self' frames,
    program_page 1 3 ["A"; "B"]%char false
      (session 256 [[success MessageSubject.SET_ADDRESS []];
                    [success MessageSubject.DATA [0; 3]]])
    = (Return tt, self')
    /\ interface self'
       = [] ++ encode (Build_Message 5 MessageType.REQUEST
                         MessageSubject.SET_ADDRESS 0 0x80 [0; 3; 0; 0])
            :: frames
    /\ length frames = 64%nat
    /\ Forall (fun f => is_data f = true) frames
    /\ payloads frames = map ord ["A"; "B"]%char ++ repeat 0xff (256 - 2)
    /\ msg_queue self' = [].
Proof.
  apply (@page_address_first 0 3 ["A"; "B"]%char
           (session 256 [[success MessageSubject.SET_ADDRESS []];
                         [success MessageSubject.DATA [0; 3]]])
           (Build_Message 5 MessageType.SUCCESS MessageSubject.SET_ADDRESS 0
              0x80 [])
           (Build_Message 5 MessageType.SUCCESS MessageSubject.DATA 0 0x80
              [0; 3]) [] [] [] 0 3 []); try reflexivity.
  simpl. lia.
Defined.

(** ** [program] *)

(** The slice that [program] passes for the page at [256 * j]. *)
Lemma page_slice (seg : list ascii) (j : nat) :
  (256 * j < length seg)%nat ->
  py_slice seg (Z.of_nat (256 * j)) (Z.of_nat (256 * j) + 256)
  = firstn 256 (skipn (256 * j) seg).
Proof.
  intros Hj. unfold py_slice, clamp_index.
  destruct (Z.ltb_spec (Z.of_nat (256 * j)) 0); [lia|].
  destruct (Z.ltb_spec (Z.of_nat (256 * j) + 256) 0); [lia|].
  rewrite (Z.min_l (Z.of_nat (256 * j))) by lia.
  destruct (Z.le_ge_cases (Z.of_nat (256 * j) + 256) (Z.of_nat (length seg))).
  - rewrite Z.min_l by lia. f_equal; [lia|]. f_equal. lia.
  - rewrite Z.min_r by lia. rewrite Nat2Z.id.
    rewrite !firstn_all2; [reflexivity| |]; rewrite length_skipn; lia.
Qed.

Lemma page_answer_inv (i : Z) (obs : list (option Message)) :
  page_answer i obs = true ->
  exists r rest a0 a1 echo,
    obs = Some r :: rest
    /\ subject r = MessageSubject.DATA
    /\ type r = MessageType.SUCCESS
    /\ data r = a0 :: a1 :: echo
    /\ Z.lor (Z.shiftl a0 8) a1 = i.
Proof.
  unfold page_answer. destruct obs as [|[r|] rest]; try discriminate.
  intros H. apply andb_true_iff in H. destruct H as [H He].
  apply andb_true_iff in H. destruct H as [Hs Ht].
  destruct (data r) as [|a0 [|a1 echo]] eqn:Hd; try discriminate.
  exists r, rest, a0, a1, echo.
  repeat split; try reflexivity; try assumption; now apply Z.eqb_eq.
Qed.

(** One page out of a segment, answered at once: the page of the loop of
    [program] that starts at byte [256 * j]. *)
Lemma write_page_step (fuel : nat) (seg : list ascii) (j : nat) (i : Z)
  (address : bool) (self s1 : Bootloader) obs q :
  ProgrammeableBoard.pagesize (board self) = 256 ->
  (256 * j < length seg)%nat ->
  set_address i (PInt 0) address self = (Return tt, s1) ->
  msg_queue s1 = obs :: q ->
  page_answer i obs = true ->
  exists s2 frames,
    program_page (S fuel) i
      (py_slice seg (Z.of_nat (256 * j)) (Z.of_nat (256 * j) + 256)) address
      self
    = (Return tt, s2)
    /\ interface s2 = interface s1 ++ frames
    /\ length frames = 64%nat
    /\ Forall (fun f => is_data f = true) frames
    /\ payloads frames
       = firstn 256 (skipn (256 * j) (map ord seg))
         ++ repeat 0xff (256 * (j + 1) - length seg)
    /\ msg_queue s2 = q
    /\ board s2 = board s1.
Proof.
  intros Hps Hj Hset Hq Ha.
  destruct (page_answer_inv _ _ Ha)
    as (r & rest & a0 & a1 & echo & -> & Hs & Ht & Hd & Hecho).
  rewrite page_slice by assumption.
  set (text := firstn 256 (skipn (256 * j) seg)).
  assert (Hlen : (length text <= 256)%nat).
  { unfold text. rewrite length_firstn. lia. }
  destruct (@program_page_full_block fuel i text address self s1 r rest q)
    as (s2 & frames & Hrun & Hi & Hv & Hq2 & Hb); try assumption.
  destruct (page_payloads text frames Hlen Hv) as (Hp & Hn & Hall).
  exists s2, frames.
  rewrite Hrun, check_answer_cases, Hd, Hecho, Z.eqb_refl.
  repeat split; try assumption.
  unfold payloads. rewrite Hp. unfold text.
  rewrite skipn_map, firstn_map. f_equal. f_equal.
  rewrite length_firstn, length_skipn. lia.
Qed.

(** The loop of [program] inside one segment: [S m] pages from byte
    [256 * j] on, the answer to each page arriving at once. *)
Lemma write_pages_segment (fuel : nat) (segments : list (list ascii))
  (k : nat) (seg : list ascii) :
  nth_error segments k = Some seg ->
  forall (m j : nat) (i : Z) (address : bool) answers rest
    (self s1 : Bootloader),
    ProgrammeableBoard.pagesize (board self) = 256 ->
    (256 * (j + m) < length seg)%nat ->
    set_address i (PInt 0) address self = (Return tt, s1) ->
    board s1 = board self ->
    msg_queue s1 = answers ++ rest ->
    length answers = S m ->
    page_answers i answers = true ->
    exists self' frames,
      write_pages (S fuel) (S m) i segments 256 k (Z.of_nat (256 * j)) address
        self
      = (Return tt, self')
      /\ interface self' = interface s1 ++ frames
      /\ length frames = (64 * S m)%nat
      /\ Forall (fun f => is_data f = true) frames
      /\ payloads frames
         = firstn (256 * S m) (skipn (256 * j) (map ord seg))
           ++ repeat 0xff (256 * (j + S m) - length seg)
      /\ msg_queue self' = rest
      /\ board self' = board self.
Proof.
  intros Hnth. induction m as [|m IH];
    intros j i address answers rest self s1 Hps Hj Hset Hb1 Hq Hlen Hans.
  - destruct answers as [|obs [|? ?]]; try discriminate.
    cbn [page_answers] in Hans. apply andb_true_iff in Hans.
    destruct Hans as [Ha _].
    destruct (@write_page_step fuel seg j i address self s1 obs rest)
      as (s2 & frames & Hrun & Hi & Hn & Hall & Hp & Hq2 & Hb);
      try assumption; [lia|].
    exists s2, frames. cbn [write_pages]. unfold bind, py_index.
    rewrite Hnth. unfold ret at 1. rewrite Hrun.
    replace (256 * 1)%nat with 256%nat by lia.
    repeat split; try assumption; try congruence.
    destruct (_ >=? _); reflexivity.
  - destruct answers as [|obs answers]; try discriminate.
    cbn [page_answers] in Hans. apply andb_true_iff in Hans.
    destruct Hans as [Ha Hans]. cbn [length] in Hlen.
    destruct (@write_page_step fuel seg j i address self s1 obs
                (answers ++ rest))
      as (s2 & frames & Hrun & Hi & Hn & Hall & Hp & Hq2 & Hb);
      try assumption; [lia|].
    destruct (IH (S j) (i + 1) true answers rest s2 s2)
      as (s3 & frames' & Hrun' & Hi' & Hn' & Hall' & Hp' & Hq3 & Hb');
      try reflexivity; try congruence; try lia.
    exists s3, (frames ++ frames').
    split; [|split; [|split; [|split; [|split; [|split]]]]].
    + change (write_pages (S fuel) (S (S m)) i segments 256 k
                (Z.of_nat (256 * j)) address self)
        with (bind (py_index segments k)
                (fun text =>
                   bind (program_page (S fuel) i
                           (py_slice text (Z.of_nat (256 * j))
                              (Z.of_nat (256 * j) + 256)) address)
                     (fun _ =>
                        if Z.of_nat (256 * j) + 256 >=? Z.of_nat (length text)
                        then write_pages (S fuel) (S m) (i + 1) segments 256
                               (S k) 0 true
                        else write_pages (S fuel) (S m) (i + 1) segments 256
                               k (Z.of_nat (256 * j) + 256) true)) self).
      unfold bind at 1, py_index. rewrite Hnth. unfold ret at 1.
      unfold bind at 1. rewrite Hrun.
      destruct (Z.geb_spec (Z.of_nat (256 * j) + 256) (Z.of_nat (length seg)));
        [lia|].
      replace (Z.of_nat (256 * j) + 256) with (Z.of_nat (256 * S j)) by lia.
      exact Hrun'.
    + rewrite Hi', Hi. now rewrite <- app_assoc.
    + rewrite length_app, Hn, Hn'. lia.
    + apply Forall_app. now split.
    + unfold payloads in *. rewrite map_app, concat_app, Hp, Hp'.
      replace (256 * (j + 1) - length seg)%nat with 0%nat by lia.
      cbn [repeat]. rewrite app_nil_r, app_assoc. f_equal.
      * replace (256 * S (S m))%nat with (256 + 256 * S m)%nat by lia.
        rewrite firstn_plus, skipn_skipn. do 3 f_equal. lia.
      * f_equal. lia.
    + exact Hq3.
    + congruence.
Qed.

Lemma image_size_nonneg (segments : list (list ascii)) :
  0 <= image_size segments.
Proof.
  unfold image_size. induction segments as [|x xs IH]; simpl; lia.
Qed.

(** [ceil(total / 256)] *)
Lemma page_count_256 (total pages : Z) :
  256 * (pages - 1) < total <= 256 * pages ->
  Qceiling (inject_Z total / inject_Z 256) = pages.
Proof.
  intros H. unfold Qceiling, Qfloor, Qdiv, Qmult, Qinv, Qopp, inject_Z.
  cbn [Qnum Qden Z.mul Pos.mul].
  rewrite Z.mul_1_r.
  assert (Hq : - total / 256 = - pages).
  { symmetry. apply (Z.div_unique_pos (- total) 256 (- pages)
                       (256 * pages - total)); lia. }
  change (Z.pos (1 * 256)) with 256. rewrite Hq. lia.
Qed.

(** [start_app] answered at once. *)
Lemma start_app_answered (self : Bootloader) (st : Message) obs q :
  msg_queue self = (Some st :: obs) :: q ->
  subject st = MessageSubject.START_APPLICATION ->
  type st = MessageType.SUCCESS ->
  start_app self
  = (Return tt,
     set_msg_number
       (transmit (request self MessageSubject.START_APPLICATION []
                    default_counter)
          (set_msg_queue self q))
       ((msg_number self + 1) mod 256)).
Proof.
  intros Hq Hs Ht. unfold start_app, bind, ret.
  rewrite (@send_accepts_success MessageSubject.START_APPLICATION []
             default_counter default_attempts self st obs q)
    by (assumption || reflexivity).
  reflexivity.
Qed.

(** [program] up to the loop over the pages. *)
Lemma program_pages (fuel : nat) (segments : list (list ascii))
  (self self1 : Bootloader) (pages : Z) :
  identify fuel self = (Return tt, self1) ->
  segments <> [] ->
  ProgrammeableBoard.pagesize (board self1) = 256 ->
  256 * (pages - 1) < image_size segments <= 256 * pages ->
  pages <= ProgrammeableBoard.pages (board self1) ->
  program fuel segments self
  = bind (write_pages fuel (Z.to_nat pages) 0 segments 256 0 0 false)
      (fun _ => start_app) self1.
Proof.
  intros Hid Hne Hps Hpages Hfit.
  unfold program. unfold bind at 1. rewrite Hid.
  unfold bind at 1. rewrite total_size_sum by assumption.
  rewrite Hps. unfold page_count. change (256 =? 0) with false. cbv iota.
  unfold bind at 1, ret at 1. rewrite (@page_count_256 _ pages Hpages).
  destruct (Z.gtb_spec pages (ProgrammeableBoard.pages (board self1)));
    [lia|reflexivity].
Qed.

(** The run of [program] on a board with pages of 256 bytes whose first
    segment holds all the pages that are written: [S m] pages, every
    request answered at once. *)
Lemma program_first_segment (fuel : nat) (seg : list ascii)
  (others : list (list ascii)) (self self1 : Bootloader) (a st : Message)
  obs0 obs1 answers q (m : nat) :
  identify fuel self = (Return tt, self1) ->
  ProgrammeableBoard.pagesize (board self1) = 256 ->
  256 * Z.of_nat m < image_size (seg :: others) <= 256 * Z.of_nat (S m) ->
  Z.of_nat (S m) <= ProgrammeableBoard.pages (board self1) ->
  (256 * m < length seg)%nat ->
  msg_queue self1 = (Some a :: obs0) :: answers ++ (Some st :: obs1) :: q ->
  subject a = MessageSubject.SET_ADDRESS ->
  type a = MessageType.SUCCESS ->
  length answers = S m ->
  page_answers 0 answers = true ->
  subject st = MessageSubject.START_APPLICATION ->
  type st = MessageType.SUCCESS ->
  exists self' set_frame frames start_frame,
    program fuel (seg :: others) self = (Return tt, self')
    /\ interface self'
       = interface self1 ++ set_frame :: frames ++ [start_frame]
    /\ frame_view set_frame
       = (MessageSubject.SET_ADDRESS, default_counter, [0; 0; 0; 0])
    /\ length frames = (64 * S m)%nat
    /\ Forall (fun f => is_data f = true) frames
    /\ payloads frames
       = map ord seg ++ repeat 0xff (256 * S m - length seg)
    /\ frame_view start_frame
       = (MessageSubject.START_APPLICATION, default_counter, [])
    /\ msg_queue self' = q.
Proof.
  intros Hid Hps Hpages Hfit Hseg Hq Hsa Hta Hlen Hans Hss Hts.
  assert (Hfuel : exists fuel', fuel = S fuel').
  { destruct fuel as [|fuel']; [discriminate|now exists fuel']. }
  destruct Hfuel as [fuel' ->].
  pose proof (image_size_nonneg others) as Hothers.
  assert (Htotal : image_size (seg :: others)
                   = Z.of_nat (length seg) + image_size others)
    by reflexivity.
  rewrite (@program_pages (S fuel') (seg :: others) self self1
             (Z.of_nat (S m))) by (try assumption; try discriminate; lia).
  rewrite Nat2Z.id.
  pose proof (@set_address_answered 0 self1 a obs0
                (answers ++ (Some st :: obs1) :: q) Hq Hsa Hta) as Hset.
  destruct (@write_pages_segment fuel' (seg :: others) 0 seg eq_refl m 0 0
              false answers ((Some st :: obs1) :: q) self1 _ Hps
              ltac:(lia) Hset eq_refl eq_refl Hlen Hans)
    as (s2 & frames & Hrun & Hi & Hn & Hall & Hp & Hq2 & Hb).
  change (Z.of_nat (256 * 0)) with 0 in Hrun.
  unfold bind. rewrite Hrun.
  rewrite (@start_app_answered s2 st obs1 q Hq2 Hss Hts).
  eexists _, _, frames, _. split; [reflexivity|].
  split.
  { cbn [interface set_msg_number transmit set_msg_queue]. rewrite Hi.
    cbn [interface set_msg_number transmit set_msg_queue].
    rewrite <- !app_assoc. reflexivity. }
  split; [reflexivity|]. split; [exact Hn|]. split; [exact Hall|].
  split; [|split; [reflexivity|reflexivity]].
  rewrite Hp. cbn [skipn]. replace (256 * 0)%nat with 0%nat by lia.
  cbn [skipn]. rewrite firstn_all2 by (rewrite length_map; lia).
  f_equal.
Qed.

(** X14: programming an image of one non-empty segment on a board with
    pages of 256 bytes, every request answered at once: after the
    [IDENTIFY] exchange [program] sends one [SET_ADDRESS] for page 0, then
    64 [DATA] frames for each of the [ceil(len / 256)] pages, which carry
    the segment followed by [0xff] up to the end of the last page, then
    [START_APPLICATION], and returns. *)
Theorem program_single_segment (fuel : nat) (seg : list ascii)
  (self self1 : Bootloader) (a st : Message) obs0 obs1 answers q (m : nat) :
  identify fuel self = (Return tt, self1) ->
  ProgrammeableBoard.pagesize (board self1) = 256 ->
  (256 * m < length seg <= 256 * S m)%nat ->
  Z.of_nat (S m) <= ProgrammeableBoard.pages (board self1) ->
  msg_queue self1 = (Some a :: obs0) :: answers ++ (Some st :: obs1) :: q ->
  subject a = MessageSubject.SET_ADDRESS ->
  type a = MessageType.SUCCESS ->
  length answers = S m ->
  page_answers 0 answers = true ->
  subject st = MessageSubject.START_APPLICATION ->
  type st = MessageType.SUCCESS ->
  exists self' set_frame frames start_frame,
    program fuel [seg] self = (Return tt, self')
    /\ interface self'
       = interface self1 ++ set_frame :: frames ++ [start_frame]
    /\ frame_view set_frame
       = (MessageSubject.SET_ADDRESS, default_counter, [0; 0; 0; 0])
    /\ length frames = (64 * S m)%nat
    /\ Forall (fun f => is_data f = true) frames
    /\ payloads frames
       = map ord seg ++ repeat 0xff (256 * S m - length seg)
    /\ frame_view start_frame
       = (MessageSubject.START_APPLICATION, default_counter, [])
    /\ msg_queue self' = q.
Proof.
  intros Hid Hps Hseg Hfit Hq Hsa Hta Hlen Hans Hss Hts.
  apply (@program_first_segment fuel seg [] self self1 a st obs0 obs1 answers
           q m); try assumption; try lia.
  unfold image_size. cbn [map fold_right]. lia.
Qed.

Lemma program_single_segment_witness :
  exists self' set_frame frames start_frame,
    program 1 [["A"; "B"]%char] one_page_session = (Return tt, self')
    /\ interface self'
       = interface (snd (identify 1 one_page_session))
         ++ set_frame :: frames ++ [start_frame]
    /\ frame_view set_frame
       = (MessageSubject.SET_ADDRESS, default_counter, [0; 0; 0; 0])
    /\ length frames = (64 * 1)%nat
    /\ Forall (fun f => is_data f = true) frames
    /\ payloads frames
       = map ord ["A"; "B"]%char ++ repeat 0xff (256 * 1 - 2)
    /\ frame_view start_frame
       = (MessageSubject.START_APPLICATION, default_counter, [])
    /\ msg_queue self' = [].
Proof.
  apply (@program_single_segment 1 ["A"; "B"]%char one_page_session
           (snd (identify 1 one_page_session))
           (Build_Message 5 MessageType.SUCCESS MessageSubject.SET_ADDRESS 0
              0x80 [])
           (Build_Message 5 MessageType.SUCCESS
              MessageSubject.START_APPLICATION 0 0x80 [])
           [] [] [page_written 0] [] 0); try reflexivity.
  - simpl. lia.
  - vm_compute. discriminate.
Defined.

(** X15: the page count of [program] comes from the total size of all
    segments, while the pages are cut out of one segment at a time.  When
    the segments after the first hold bytes but the total still fits the
    pages that the first segment starts, [program] returns after sending
    the first segment only, padded with [0xff]: no byte of a later segment
    is transmitted. *)
Theorem program_later_segments_dropped (fuel : nat) (seg : list ascii)
  (others : list (list ascii)) (self self1 : Bootloader) (a st : Message)
  obs0 obs1 answers q (m : nat) :
  identify fuel self = (Return tt, self1) ->
  ProgrammeableBoard.pagesize (board self1) = 256 ->
  0 < image_size others ->
  (256 * m < length seg)%nat ->
  image_size (seg :: others) <= 256 * Z.of_nat (S m) ->
  Z.of_nat (S m) <= ProgrammeableBoard.pages (board self1) ->
  msg_queue self1 = (Some a :: obs0) :: answers ++ (Some st :: obs1) :: q ->
  subject a = MessageSubject.SET_ADDRESS ->
  type a = MessageType.SUCCESS ->
  length answers = S m ->
  page_answers 0 answers = true ->
  subject st = MessageSubject.START_APPLICATION ->
  type st = MessageType.SUCCESS ->
  exists self' set_frame frames start_frame,
    program fuel (seg :: others) self = (Return tt, self')
    /\ interface self'
       = interface self1 ++ set_frame :: frames ++ [start_frame]
    /\ is_data set_frame = false
    /\ is_data start_frame = false
    /\ Forall (fun f => is_data f = true) frames
    /\ payloads frames
       = map ord seg ++ repeat 0xff (256 * S m - length seg).
Proof.
  intros Hid Hps Hothers Hseg Htotal Hfit Hq Hsa Hta Hlen Hans Hss Hts.
  assert (Hsize : image_size (seg :: others)
                  = Z.of_nat (length seg) + image_size others)
    by reflexivity.
  destruct (@program_first_segment fuel seg others self self1 a st obs0 obs1
              answers q m)
    as (self' & set_frame & frames & start_frame & Hrun & Hi & Hvs & _ & Hall
        & Hp & Hvt & _); try assumption; try lia.
  exists self', set_frame, frames, start_frame.
  repeat split; try assumption.
  - unfold is_data. apply (f_equal (fun v => fst (fst v))) in Hvs.
    unfold frame_view in Hvs. cbn [fst] in Hvs. now rewrite Hvs.
  - unfold is_data. apply (f_equal (fun v => fst (fst v))) in Hvt.
    unfold frame_view in Hvt. cbn [fst] in Hvt. now rewrite Hvt.
Qed.

Lemma program_later_segments_dropped_witness :
  exists self' set_frame frames start_frame,
    program 1 [["A"; "B"]; ["C"]]%char one_page_session = (Return tt, self')
    /\ interface self'
       = interface (snd (identify 1 one_page_session))
         ++ set_frame :: frames ++ [start_frame]
    /\ is_data set_frame = false
    /\ is_data start_frame = false
    /\ Forall (fun f => is_data f = true) frames
    /\ payloads frames
       = map ord ["A"; "B"]%char ++ repeat 0xff (256 * 1 - 2).
Proof.
  apply (@program_later_segments_dropped 1 ["A"; "B"]%char [["C"]%char]
           one_page_session (snd (identify 1 one_page_session))
           (Build_Message 5 MessageType.SUCCESS MessageSubject.SET_ADDRESS 0
              0x80 [])
           (Build_Message 5 MessageType.SUCCESS
              MessageSubject.START_APPLICATION 0 0x80 [])
           [] [] [page_written 0] [] 0); try reflexivity.
  - simpl. lia.
  - vm_compute. discriminate.
  - vm_compute. discriminate.
Defined.

(** X16: an image without bytes is not written.  Once the board is
    identified, [program] with no segment at all raises [TypeError] (the
    sum over an empty sequence), and with segments that are all empty it
    goes on directly to [start_app]: no page is addressed or sent. *)
Theorem program_nothing_to_write (fuel : nat) (segments : list (list ascii))
  (self self1 : Bootloader) :
  identify fuel self = (Return tt, self1) ->
  image_size segments = 0 ->
  0 <= ProgrammeableBoard.pages (board self1) ->
  program fuel segments self
  = match segments with
    | [] => (Raise TypeError, self1)
    | _ :: _ => start_app self1
    end.
Proof.
  intros Hid Hsize Hpages.
  destruct (identify_spec _ _ Hid) as (Hps & _).
  unfold program. unfold bind at 1. rewrite Hid.
  destruct segments as [|seg others]; [reflexivity|].
  unfold bind at 1.
  rewrite total_size_sum by discriminate. rewrite Hsize.
  assert (Hcount :
            page_count 0 (ProgrammeableBoard.pagesize (board self1)) self1
            = (Return 0, self1)).
  { cbn [In] in Hps.
    destruct Hps as [<-|[<-|[<-|[<-|[]]]]]; reflexivity. }
  unfold bind at 1. rewrite Hcount.
  destruct (Z.gtb_spec 0 (ProgrammeableBoard.pages (board self1))); [lia|].
  cbn [Z.to_nat write_pages]. reflexivity.
Qed.

Lemma program_nothing_to_write_witness :
  program 1 [[]] no_page_session
  = start_app (snd (identify 1 no_page_session)).
Proof.
  apply (@program_nothing_to_write 1 [[]] no_page_session
           (snd (identify 1 no_page_session))); try reflexivity.
  vm_compute. discriminate.
Defined.

(** ** What is transmitted, whatever the outcome *)

Lemma extends_refl (P : can.Message -> Prop) (self : Bootloader) :
  extends P self self.
Proof.
  split; [reflexivity|]. exists []. now rewrite app_nil_r.
Qed.

Lemma extends_trans (P : can.Message -> Prop) (s1 s2 s3 : Bootloader) :
  extends P s1 s2 -> extends P s2 s3 -> extends P s1 s3.
Proof.
  intros (Hb1 & f1 & Hi1 & Hf1) (Hb2 & f2 & Hi2 & Hf2).
  split; [congruence|]. exists (f1 ++ f2). split.
  - rewrite Hi2, Hi1. now rewrite <- app_assoc.
  - apply Forall_app. now split.
Qed.

Lemma extends_weaken (P Q : can.Message -> Prop) (s1 s2 : Bootloader) :
  (forall f, P f -> Q f) -> extends P s1 s2 -> extends Q s1 s2.
Proof.
  intros HPQ (Hb & f & Hi & Hf). split; [exact Hb|].
  exists f. split; [exact Hi|]. eapply Forall_impl; [exact HPQ|exact Hf].
Qed.

Lemma sends_only_ret {A : Type} (P : can.Message -> Prop) (a : A) :
  sends_only P (ret a).
Proof. intros self o self' H. inversion H; subst. apply extends_refl. Qed.

Lemma sends_only_raise {A : Type} (P : can.Message -> Prop) (e : exn) :
  sends_only P (@raise A e).
Proof. intros self o self' H. inversion H; subst. apply extends_refl. Qed.

Lemma sends_only_bind {A B : Type} (P : can.Message -> Prop) (c : M A)
  (k : A -> M B) :
  sends_only P c -> (forall a, sends_only P (k a)) -> sends_only P (bind c k).
Proof.
  intros Hc Hk self o self'. unfold bind.
  destruct (c self) as [[a|e| |] s1] eqn:Hrun; intros H;
    pose proof (Hc _ _ _ Hrun) as H1.
  - eapply extends_trans; [exact H1|]. eapply Hk. exact H.
  - inversion H; subst. exact H1.
  - inversion H; subst. exact H1.
  - inversion H; subst. exact H1.
Qed.

Lemma sends_only_weaken {A : Type} (P Q : can.Message -> Prop) (c : M A) :
  (forall f, P f -> Q f) -> sends_only P c -> sends_only Q c.
Proof.
  intros HPQ Hc self o self' H. eapply extends_weaken; [exact HPQ|].
  eapply Hc. exact H.
Qed.

(** The frames of a request carry its subject. *)
Lemma send_subject (subj : Z) (payload : list Z) (counter : Z)
  (response : bool) (attempts : Z) :
  0 <= subj < 64 ->
  sends_only (has_subject subj) (_send subj payload counter response attempts).
Proof.
  intros Hs self o self' H. apply send_frames in H.
  destruct H as (Hb & frames & Hi & Hf). split; [exact Hb|].
  exists (encode (request self subj payload counter) :: frames).
  split; [exact Hi|]. constructor.
  - unfold has_subject, frame_subject, encode. cbn [can.data app nth].
    now apply header_subject.
  - eapply Forall_impl; [|exact Hf]. intros f [n ->].
    unfold has_subject, frame_subject, encode, set_number.
    cbn [can.data app nth subject type]. now apply header_subject.
Qed.

Lemma subject_page_write (subj : Z) (f : can.Message) :
  subj = MessageSubject.SET_ADDRESS \/ subj = MessageSubject.DATA ->
  has_subject subj f -> is_page_write f = true.
Proof.
  unfold has_subject, is_page_write, is_data. intros [->| ->] ->; reflexivity.
Qed.

Lemma send_page_write (subj : Z) (payload : list Z) (counter : Z)
  (response : bool) (attempts : Z) :
  subj = MessageSubject.SET_ADDRESS \/ subj = MessageSubject.DATA ->
  sends_only (fun f => is_page_write f = true)
    (_send subj payload counter response attempts).
Proof.
  intros Hs. apply sends_only_weaken with (P := has_subject subj).
  - intros f. now apply subject_page_write.
  - apply send_subject. destruct Hs as [->| ->]; cbv; split; congruence.
Qed.

Lemma as_int_sends_nothing (P : can.Message -> Prop) (x : pynum) :
  sends_only P (as_int x).
Proof.
  destruct x; [apply sends_only_ret|apply sends_only_raise].
Qed.

Lemma unit_slice_sends_nothing (P : can.Message -> Prop) (text : list Z)
  (x : pynum) :
  sends_only P (unit_slice text x).
Proof.
  unfold unit_slice.
  apply sends_only_bind; [apply as_int_sends_nothing|]. intros a.
  apply sends_only_bind; [apply as_int_sends_nothing|]. intros b.
  apply sends_only_ret.
Qed.

Lemma set_address_page_write (page : Z) (offset : pynum) (address : bool) :
  sends_only (fun f => is_page_write f = true)
    (set_address page offset address).
Proof.
  unfold set_address. destruct address; [apply sends_only_ret|].
  apply sends_only_bind; [apply as_int_sends_nothing|]. intros o.
  apply sends_only_bind; [apply send_page_write; now left|]. intros _.
  apply sends_only_ret.
Qed.

Lemma middle_frames_page_write (n : nat) (i : Z) (text : list Z) :
  sends_only (fun f => is_page_write f = true) (middle_frames n i text).
Proof.
  revert i. induction n as [|n IH]; intros i; cbn [middle_frames].
  - apply sends_only_ret.
  - apply sends_only_bind; [apply unit_slice_sends_nothing|]. intros p.
    apply sends_only_bind; [apply send_page_write; now right|]. intros _.
    apply IH.
Qed.

Lemma send_block_page_write (blocksize offset : pynum) (text : list Z) :
  sends_only (fun f => is_page_write f = true)
    (send_block blocksize offset text).
Proof.
  unfold send_block. destruct (py_eq blocksize (PInt 1)).
  - apply sends_only_bind; [apply unit_slice_sends_nothing|]. intros p.
    apply send_page_write; now right.
  - apply sends_only_bind; [apply as_int_sends_nothing|]. intros c.
    apply sends_only_bind; [apply unit_slice_sends_nothing|]. intros p.
    apply sends_only_bind; [apply send_page_write; now right|]. intros _.
    apply sends_only_bind; [apply as_int_sends_nothing|]. intros k0.
    apply sends_only_bind; [apply as_int_sends_nothing|]. intros i.
    apply sends_only_bind; [apply middle_frames_page_write|]. intros i'.
    apply sends_only_bind; [apply unit_slice_sends_nothing|]. intros p'.
    apply send_page_write; now right.
Qed.

Lemma page_loop_page_write (fuel : nat) (page : Z) (text : list Z) :
  forall remaining blocksize offset address answer,
    sends_only (fun f => is_page_write f = true)
      (page_loop fuel page text remaining blocksize offset address answer).
Proof.
  induction fuel as [|fuel IH];
    intros remaining blocksize offset address answer self o self';
    cbn [page_loop]; destruct (negb (py_gt remaining (PInt 0)));
    try (intros H; inversion H; subst; apply extends_refl).
  destruct (set_address page offset address self) as [o1 s1] eqn:Hset.
  pose proof (@set_address_page_write page offset address _ _ _ Hset) as H1.
  assert (Hhandler : forall b e s,
            extends (fun f => is_page_write f = true) self s ->
            (if py_gt b (PInt 1)
             then page_loop fuel page text remaining (py_truediv b 2) offset
                    false answer s
             else (Raise e, s)) = (o, self') ->
            extends (fun f => is_page_write f = true) self self').
  { intros b e s Hs. destruct (py_gt b (PInt 1)); intros H.
    - eapply extends_trans; [exact Hs|]. eapply IH. exact H.
    - inversion H; subst. exact Hs. }
  destruct o1 as [[]|e| |].
  - set (b := if py_lt remaining blocksize then remaining else blocksize).
    destruct (send_block b offset text s1) as [o2 s2] eqn:Hblock.
    pose proof (@send_block_page_write b offset text _ _ _ Hblock) as H2.
    pose proof (extends_trans H1 H2) as H12.
    destruct o2 as [r|e| |].
    + intros H. eapply extends_trans; [exact H12|]. eapply IH. exact H.
    + destruct e; try (intros H; inversion H; subst; exact H12).
      apply Hhandler. exact H12.
    + intros H; inversion H; subst; exact H12.
    + intros H; inversion H; subst; exact H12.
  - destruct e; try (intros H; inversion H; subst; exact H1).
    apply Hhandler. exact H1.
  - intros H; inversion H; subst; exact H1.
  - intros H; inversion H; subst; exact H1.
Qed.

Lemma check_answer_sends_nothing (P : can.Message -> Prop) (page : Z)
  (answer : option (option Message)) :
  sends_only P (check_answer page answer).
Proof.
  unfold check_answer, py_index.
  destruct answer as [[r|]|]; try apply sends_only_raise.
  destruct (data r) as [|a0 [|a1 echo]]; cbn [nth_error].
  - apply sends_only_bind; [apply sends_only_raise|]. intros a.
    apply sends_only_bind; [apply sends_only_raise|]. intros b.
    destruct (negb _); [apply sends_only_raise|apply sends_only_ret].
  - apply sends_only_bind; [apply sends_only_ret|]. intros a.
    apply sends_only_bind; [apply sends_only_raise|]. intros b.
    destruct (negb _); [apply sends_only_raise|apply sends_only_ret].
  - apply sends_only_bind; [apply sends_only_ret|]. intros a.
    apply sends_only_bind; [apply sends_only_ret|]. intros b.
    destruct (negb _); [apply sends_only_raise|apply sends_only_ret].
Qed.

Lemma program_page_page_write (fuel : nat) (page : Z) (text : list ascii)
  (address : bool) :
  sends_only (fun f => is_page_write f = true)
    (program_page fuel page text address).
Proof.
  intros self o self'. unfold program_page.
  apply sends_only_bind; [apply page_loop_page_write|]. intros answer.
  apply check_answer_sends_nothing.
Qed.

(** X17: whatever its outcome (return, any exception, at any page size and
    after any number of reductions of the block size), [program_page]
    leaves the board record as it is and transmits nothing but
    [SET_ADDRESS] and [DATA] frames. *)
Theorem program_page_traffic (fuel : nat) (page : Z) (text : list ascii)
  (address : bool) (self : Bootloader) o self' :
  program_page fuel page text address self = (o, self') ->
  board self' = board self
  /\ exists frames,
      interface self' = interface self ++ frames
      /\ Forall (fun f => is_page_write f = true) frames.
Proof.
  intros H. exact (@program_page_page_write fuel page text address _ _ _ H).
Qed.

Lemma program_page_traffic_witness :
  let self := session 128 [[success MessageSubject.SET_ADDRESS []]] in
  let run := program_page 8 0 ["A"; "B"]%char false self in
  board (snd run) = board self
  /\ exists frames,
      interface (snd run) = interface self ++ frames
      /\ Forall (fun f => is_page_write f = true) frames.
Proof.
  apply (@program_page_traffic 8 0 ["A"; "B"]%char false
           (session 128 [[success MessageSubject.SET_ADDRESS []]])
           (Raise TypeError)).
  vm_compute. reflexivity.
Defined.

Lemma identify_traffic (fuel : nat) (self : Bootloader) o s1 :
  identify fuel self = (o, s1) ->
  exists frames,
    interface s1 = interface self ++ frames
    /\ Forall (has_subject MessageSubject.IDENTIFY) frames.
Proof.
  unfold identify, bind.
  destruct (identify_loop fuel self) as [o1 s0] eqn:Hloop.
  apply identify_loop_frames in Hloop.
  destruct Hloop as (_ & frames & Hi & Hf).
  assert (Hall : Forall (has_subject MessageSubject.IDENTIFY) frames).
  { eapply Forall_impl; [|exact Hf]. intros f [n ->]. reflexivity. }
  destruct o1 as [response|e| |];
    try (intros H; inversion H; subst; exists frames; now split).
  intros H. apply fill_board_spec in H. destruct H as (Hi' & _).
  exists frames. split; [congruence|exact Hall].
Qed.

Lemma write_pages_page_write (fuel : nat) (segments : list (list ascii))
  (pagesize : Z) (n : nat) :
  forall i k offset address,
    sends_only (fun f => is_page_write f = true)
      (write_pages fuel n i segments pagesize k offset address).
Proof.
  induction n as [|n IH]; intros i k offset address; cbn [write_pages].
  - apply sends_only_ret.
  - apply sends_only_bind.
    { unfold py_index. destruct (nth_error segments k);
        [apply sends_only_ret|apply sends_only_raise]. }
    intros text.
    apply sends_only_bind; [apply program_page_page_write|]. intros _.
    destruct (_ >=? _); apply IH.
Qed.

(** X18: the traffic of [program], whatever its outcome: [IDENTIFY]
    requests, then [SET_ADDRESS] and [DATA] frames, then
    [START_APPLICATION] requests, in this order.  A page is written only
    after [identify] has returned, the application is started only after
    the loop over the pages has returned, and [program] returns only after
    it has sent [START_APPLICATION]. *)
Theorem program_traffic (fuel : nat) (segments : list (list ascii))
  (self : Bootloader) o self' :
  program fuel segments self = (o, self') ->
  exists idf wf sf,
    interface self' = interface self ++ idf ++ wf ++ sf
    /\ Forall (has_subject MessageSubject.IDENTIFY) idf
    /\ Forall (fun f => is_page_write f = true) wf
    /\ Forall (has_subject MessageSubject.START_APPLICATION) sf
    /\ (wf <> [] \/ sf <> [] ->
        exists s1, identify fuel self = (Return tt, s1)
                   /\ interface s1 = interface self ++ idf)
    /\ (sf <> [] ->
        exists s1 s2 n,
          identify fuel self = (Return tt, s1)
          /\ write_pages fuel n 0 segments
               (ProgrammeableBoard.pagesize (board s1)) 0 0 false s1
             = (Return tt, s2)
          /\ interface s2 = interface self ++ idf ++ wf)
    /\ (o = Return tt -> sf <> []).
Proof.
  intros H. unfold program, bind in H.
  destruct (identify fuel self) as [o1 s1] eqn:Hid.
  destruct (identify_traffic _ _ Hid) as (idf & Hi1 & Hf1).
  assert (Hstop : forall o', o' <> Return tt -> (o', s1) = (o, self') ->
            exists idf wf sf,
              interface self' = interface self ++ idf ++ wf ++ sf
              /\ Forall (has_subject MessageSubject.IDENTIFY) idf
              /\ Forall (fun f => is_page_write f = true) wf
              /\ Forall (has_subject MessageSubject.START_APPLICATION) sf
              /\ (wf <> [] \/ sf <> [] ->
                  exists s1', (o1, s1) = (Return tt, s1')
                              /\ interface s1' = interface self ++ idf)
              /\ (sf <> [] ->
                  exists s1' s2 n,
                    (o1, s1) = (Return tt, s1')
                    /\ write_pages fuel n 0 segments
                         (ProgrammeableBoard.pagesize (board s1')) 0 0 false
                         s1'
                       = (Return tt, s2)
                    /\ interface s2 = interface self ++ idf ++ wf)
              /\ (o = Return tt -> sf <> [])).
  { intros o' Ho' Heq. inversion Heq; subst o' self'.
    exists idf, [], []. rewrite !app_nil_r.
    split; [exact Hi1|]. split; [exact Hf1|].
    split; [constructor|]. split; [constructor|].
    split; [intros [Hc|Hc]; now elim Hc|].
    split; [intros Hc; now elim Hc|].
    intros Hc. now elim Ho'. }
  destruct o1 as [[]|e| |]; try (apply Hstop in H; [exact H|discriminate]).
  unfold total_size in H.
  destruct (map (fun x => Z.of_nat (length x)) segments) as [|x xs];
    [apply Hstop in H; [exact H|discriminate]|].
  unfold ret at 1 in H. unfold page_count in H.
  destruct (ProgrammeableBoard.pagesize (board s1) =? 0);
    [apply Hstop in H; [exact H|discriminate]|].
  unfold ret at 1 in H.
  destruct (_ >? _); [apply Hstop in H; [exact H|discriminate]|].
  match type of H with
  | context [write_pages fuel ?n 0 segments ?ps 0 0 false s1] =>
      destruct (write_pages fuel n 0 segments ps 0 0 false s1) as [o2 s2]
        eqn:Hw; set (pages := n) in *
  end.
  destruct (@write_pages_page_write _ _ _ _ _ _ _ _ _ _ _ Hw)
    as (Hb2 & wf & Hi2 & Hf2).
  assert (Hstop2 : forall o', o' <> Return tt -> (o', s2) = (o, self') ->
            exists idf wf sf,
              interface self' = interface self ++ idf ++ wf ++ sf
              /\ Forall (has_subject MessageSubject.IDENTIFY) idf
              /\ Forall (fun f => is_page_write f = true) wf
              /\ Forall (has_subject MessageSubject.START_APPLICATION) sf
              /\ (wf <> [] \/ sf <> [] ->
                  exists s1', (Return tt, s1) = (Return tt, s1')
                              /\ interface s1' = interface self ++ idf)
              /\ (sf <> [] ->
                  exists s1' s2 n,
                    (@Return unit tt, s1) = (Return tt, s1')
                    /\ write_pages fuel n 0 segments
                         (ProgrammeableBoard.pagesize (board s1')) 0 0 false
                         s1'
                       = (Return tt, s2)
                    /\ interface s2 = interface self ++ idf ++ wf)
              /\ (o = Return tt -> sf <> [])).
  { intros o' Ho' Heq. inversion Heq; subst o' self'.
    exists idf, wf, []. rewrite !app_nil_r.
    split; [rewrite Hi2, Hi1; now rewrite <- app_assoc|].
    split; [exact Hf1|]. split; [exact Hf2|]. split; [constructor|].
    split; [intros _; exists s1; now split|].
    split; [intros Hc; now elim Hc|].
    intros Hc. now elim Ho'. }
  destruct o2 as [[]|e| |]; try (apply Hstop2 in H; [exact H|discriminate]).
  unfold start_app, bind in H.
  destruct (_send MessageSubject.START_APPLICATION [] default_counter true
              default_attempts s2) as [o3 s3] eqn:Hs.
  pose proof (@send_subject MessageSubject.START_APPLICATION [] default_counter
                true default_attempts ltac:(cbv; split; congruence) _ _ _ Hs)
    as (_ & sf & Hi3 & Hf3).
  assert (Hsf : sf <> []).
  { apply send_frames in Hs. destruct Hs as (_ & frames & Hi3' & _).
    rewrite Hi3 in Hi3'. apply app_inv_head in Hi3'. now rewrite Hi3'. }
  assert (Hend : self' = s3).
  { destruct o3; inversion H; reflexivity. }
  subst self'.
  exists idf, wf, sf.
  split; [rewrite Hi3, Hi2, Hi1; now rewrite <- !app_assoc|].
  split; [exact Hf1|]. split; [exact Hf2|]. split; [exact Hf3|].
  split; [intros _; exists s1; now split|].
  split.
  - intros _. exists s1, s2, pages. split; [reflexivity|]. split; [exact Hw|].
    rewrite Hi2, Hi1. now rewrite <- app_assoc.
  - intros _. exact Hsf.
Qed.

Lemma program_traffic_witness :
  let run := program 1 [["A"; "B"]%char] one_page_session in
  exists idf wf sf,
    interface (snd run) = interface one_page_session ++ idf ++ wf ++ sf
    /\ Forall (has_subject MessageSubject.IDENTIFY) idf
    /\ Forall (fun f => is_page_write f = true) wf
    /\ Forall (has_subject MessageSubject.START_APPLICATION) sf
    /\ (wf <> [] \/ sf <> [] ->
        exists s1, identify 1 one_page_session = (Return tt, s1)
                   /\ interface s1 = interface one_page_session ++ idf)
    /\ (sf <> [] ->
        exists s1 s2 n,
          identify 1 one_page_session = (Return tt, s1)
          /\ write_pages 1 n 0 [["A"; "B"]%char]
               (ProgrammeableBoard.pagesize (board s1)) 0 0 false s1
             = (Return tt, s2)
          /\ interface s2 = interface one_page_session ++ idf ++ wf)
    /\ (fst run = Return tt -> sf <> []).
Proof.
  apply (@program_traffic 1 [["A"; "B"]%char] one_page_session
           (fst (program 1 [["A"; "B"]%char] one_page_session))
           (snd (program 1 [["A"; "B"]%char] one_page_session))).
  apply surjective_pairing.
Defined.
